(** * private_gpt.settings.settings: the typed settings tree

    A shallow embedding of [private_gpt/settings/settings.py].  The module is a
    list of pydantic model classes; its behaviour is what [BaseModel.__init__]
    does with them.  The development has three layers:

    - the Python values involved: the raw mapping whose entries are
      the keyword arguments of the [Settings] constructor call,
      the heap of mutable objects (lists, model instances) and references;
    - the binder, i.e. model validation as pydantic performs it for the field
      declarations used in this module (required fields, literal sets,
      [T | None], nested models, [default=] and [default_factory=]);
    - the module itself: its class statements in source order, the module
      level construction of [unsafe_typed_settings], and [settings()]. *)

From Stdlib Require Import ZArith String List Lia Bool.
From Stdlib Require Import SpecFloat.
From stdpp Require Import base option list strings.

#[local] Set Warnings "-register-all".

Open Scope string_scope.
Open Scope Z_scope.
Open Scope list_scope.

(** ** Python values *)

(** What [load_active_settings()] can return: the result of reading YAML,
    a tree of scalars, sequences and string-keyed mappings.  A mapping keeps
    its entries in order, as a Python [dict] does. *)
Inductive raw : Type :=
| RNone
| RBool (b : bool)
| RInt (z : Z)
| RFloat (f : spec_float)
| RStr (s : string)
| RList (items : list raw)
| RDict (entries : list (string * raw)).

(** [d.get(key)]: the first entry with that key. *)
Fixpoint dict_get {A : Type} (key : string) (d : list (string * A)) : option A :=
  match d with
  | [] => None
  | (k, v) :: d' => if String.eqb k key then Some v else dict_get key d'
  end.

Abbreviation addr := nat.

(** A bound value: an immutable scalar, or a reference to a heap object. *)
Inductive value : Type :=
| VNone
| VBool (b : bool)
| VInt (z : Z)
| VFloat (f : spec_float)
| VStr (s : string)
| VRef (a : addr).

(** The mutable objects: a [list], and a model instance with its class name
    and its [__dict__]. *)
Inductive object : Type :=
| OList (items : list value)
| OInstance (cls : string) (attrs : list (string * value)).

Abbreviation heap := (list object).

(** ** Validation errors *)

Inductive loc_item : Type :=
| LKey (k : string)
| LIdx (i : nat).

Definition loc := list loc_item.

Inductive error_type : Type :=
| missing
| literal_error (expected : list string)
| bool_type
| bool_parsing
| int_type
| int_parsing
| int_from_float
| float_type
| float_parsing
| finite_number
| string_type
| list_type
| model_type (cls : string)
| default_not_copyable.

(** One line of a [ValidationError]: where and what. *)
Record line_error : Type := LineError { err_loc : loc; err_type : error_type }.

Definition at_loc (i : loc_item) (e : line_error) : line_error :=
  LineError (i :: err_loc e) (err_type e).

Inductive result (A : Type) : Type :=
| Ok (a : A)
| Raise (errors : list line_error).
Arguments Ok {A} a.
Arguments Raise {A} errors.

(** ** Heap and exception monad *)

Definition M (A : Type) : Type := heap -> result A * heap.

#[global] Instance M_ret : MRet M := fun A a h => (Ok a, h).

#[global] Instance M_bind : MBind M := fun A B k m h =>
  match m h with
  | (Ok a, h') => k a h'
  | (Raise es, h') => (Raise es, h')
  end.

Definition raise {A : Type} (es : list line_error) : M A := fun h => (Raise es, h).

(** Allocation of a new object; the reference is its address. *)
Definition alloc (o : object) : M value := fun h => (Ok (VRef (length h)), h ++ [o]).

(** Run [m]; a [ValidationError] it raises is reported below [i]. *)
Definition nested (i : loc_item) {A : Type} (m : M A) : M A := fun h =>
  match m h with
  | (Ok a, h') => (Ok a, h')
  | (Raise es, h') => (Raise (map (at_loc i) es), h')
  end.

(** Run every [f x], collecting the errors of all of them: validation goes on
    after a failure, and raises at the end with every line. *)
Definition collect {A B : Type} (f : A -> M B) : list A -> M (list B) :=
  fix go (l : list A) : M (list B) :=
    match l with
    | [] => mret []
    | x :: l' => fun h =>
        match f x h with
        | (Ok b, h1) =>
            match go l' h1 with
            | (Ok bs, h2) => (Ok (b :: bs), h2)
            | (Raise es, h2) => (Raise es, h2)
            end
        | (Raise es1, h1) =>
            match go l' h1 with
            | (Ok _, h2) => (Raise es1, h2)
            | (Raise es2, h2) => (Raise (es1 ++ es2), h2)
            end
        end
    end.

(** [collect] over the items of a sequence, each reported under its index. *)
Definition collect_items {B : Type} (f : raw -> M B) (items : list raw) : M (list B) :=
  collect (fun '(i, r) => nested (LIdx i) (f r)) (imap (fun i r => (i, r)) items).

(** ** copy.deepcopy *)

Definition copy_each (copy : value -> heap -> option value * heap)
  : list value -> heap -> option (list value) * heap :=
  fix go (vs : list value) (h : heap) :=
    match vs with
    | [] => (Some [], h)
    | v :: vs' =>
        match copy v h with
        | (Some v', h1) =>
            match go vs' h1 with
            | (Some vs'', h2) => (Some (v' :: vs''), h2)
            | (None, h2) => (None, h2)
            end
        | (None, h1) => (None, h1)
        end
    end.

(** The copy of the object graph below [v]: scalars are immutable and copy to
    themselves, a list or an instance is rebuilt from the copies of what it
    holds.  [None] when the graph is deeper than [fuel] or mentions an address
    that is not allocated. *)
Fixpoint deepcopy (fuel : nat) (v : value) (h : heap) : option value * heap :=
  match v with
  | VRef a =>
      match fuel with
      | O => (None, h)
      | S fuel' =>
          match h !! a with
          | Some (OList items) =>
              match copy_each (deepcopy fuel') items h with
              | (Some items', h') => (Some (VRef (length h')), h' ++ [OList items'])
              | (None, h') => (None, h')
              end
          | Some (OInstance cls attrs) =>
              match copy_each (deepcopy fuel') (map snd attrs) h with
              | (Some vs', h') =>
                  (Some (VRef (length h')), h' ++ [OInstance cls (zip (map fst attrs) vs')])
              | (None, h') => (None, h')
              end
          | None => (None, h)
          end
      end
  | _ => (Some v, h)
  end.

(** ** Field declarations *)

(** The annotations this module uses. *)
Inductive ftype : Type :=
| TBool
| TInt
| TFloat
| TStr
| TLiteral (allowed : list string)
| TList (elem : ftype)
| TOptional (t : ftype)
| TModel (m : model)
with model : Type :=
| Model (cls : string) (fields : list field)
with field : Type :=
| Field (fname : string) (ftyp : ftype) (fdefault : default)
with default : Type :=
| Required
| Default (v : value)
| DefaultFactory (m : model) (kwargs : list (string * raw)).

Definition cls_of (m : model) : string := let 'Model c _ := m in c.
Definition fields_of (m : model) : list field := let 'Model _ fs := m in fs.
Definition fname_of (f : field) : string := let 'Field n _ _ := f in n.

(** Induction over annotations, models, fields and defaults together. *)
Section schema_induction.

Variables (P : ftype -> Prop) (Q : model -> Prop) (F : field -> Prop).
Hypotheses
  (HBool : P TBool) (HInt : P TInt) (HFloat : P TFloat) (HStr : P TStr)
  (HLiteral : forall allowed, P (TLiteral allowed))
  (HList : forall elem, P elem -> P (TList elem))
  (HOptional : forall t, P t -> P (TOptional t))
  (HModel : forall m, Q m -> P (TModel m))
  (HFields : forall cls fs, Forall F fs -> Q (Model cls fs))
  (HRequired : forall n t, P t -> F (Field n t Required))
  (HDefault : forall n t v, P t -> F (Field n t (Default v)))
  (HFactory : forall n t m kw, P t -> Q m -> F (Field n t (DefaultFactory m kw))).

Fixpoint ftype_schema_ind (t : ftype) : P t :=
  match t with
  | TBool => HBool
  | TInt => HInt
  | TFloat => HFloat
  | TStr => HStr
  | TLiteral allowed => HLiteral allowed
  | TList elem => HList elem (ftype_schema_ind elem)
  | TOptional t' => HOptional t' (ftype_schema_ind t')
  | TModel m => HModel m (model_schema_ind m)
  end
with model_schema_ind (m : model) : Q m :=
  match m with
  | Model cls fs =>
      HFields cls fs
        ((fix go (fs : list field) : Forall F fs :=
            match fs with
            | [] => Forall_nil_2 F
            | f :: fs' => Forall_cons_2 F f fs' (field_schema_ind f) (go fs')
            end) fs)
  end
with field_schema_ind (f : field) : F f :=
  match f with
  | Field n t d =>
      match d with
      | Required => HRequired n t (ftype_schema_ind t)
      | Default v => HDefault n t v (ftype_schema_ind t)
      | DefaultFactory m kw => HFactory n t m kw (ftype_schema_ind t) (model_schema_ind m)
      end
  end.

End schema_induction.

(** ** The binder *)

(** What pydantic does in its lax mode with an input that is not of the
    annotated type.  For [bool], [int] and [float] it either converts the
    input (a numeric string for an [int], [1] for a [bool], ...) or refuses
    it, with a line whose type depends on the input: for an [int],
    [int_parsing] for a string that does not parse, [int_from_float] for a
    float with a fractional part, [finite_number] for an infinity,
    [int_type] for null, a list or a mapping; [bool_parsing], [bool_type],
    [float_parsing] and [float_type] alike.  A [str] refuses with
    [string_type] whatever it does not convert.  The module does not
    configure any of this, and the development is parametric in it: the
    binder itself only fixes that an input of the annotated type is taken as
    it is. *)
Record conversions : Type := Conversions {
  lax_bool : raw -> bool + error_type;
  lax_int : raw -> Z + error_type;
  lax_float : raw -> spec_float + error_type;
  lax_str : raw -> option string
}.

(** No conversion at all, as in pydantic's strict mode: whatever is not of
    the annotated type is refused with the [.._type] line. *)
Definition exact_only : conversions :=
  Conversions (fun _ => inr bool_type) (fun _ => inr int_type) (fun _ => inr float_type)
    (fun _ => None).

Definition line (t : error_type) : line_error := LineError [] t.

(** [hash(v)] succeeds: the scalars.  Lists and the instances of this module's
    models (none is frozen) are unhashable. *)
Definition hashable (v : value) : bool :=
  match v with
  | VRef _ => false
  | _ => true
  end.

(** The value of an absent field declared with [default=v].  pydantic hands
    out [v] itself when it is hashable, and a [copy.deepcopy] of it, made for
    the instance under construction, when it is not. *)
Definition default_value (v : value) : M value := fun h =>
  if hashable v then (Ok v, h)
  else match deepcopy (length h) v h with
       | (Some v', h') => (Ok v', h')
       | (None, h') => (Raise [line default_not_copyable], h')
       end.

Section Binder.

Context (lax : conversions).

Definition validate_bool (r : raw) : M value :=
  match r with
  | RBool b => mret (VBool b)
  | _ => match lax_bool lax r with
         | inl b => mret (VBool b)
         | inr e => raise [line e]
         end
  end.

Definition validate_int (r : raw) : M value :=
  match r with
  | RInt z => mret (VInt z)
  | _ => match lax_int lax r with
         | inl z => mret (VInt z)
         | inr e => raise [line e]
         end
  end.

Definition validate_float (r : raw) : M value :=
  match r with
  | RFloat f => mret (VFloat f)
  | _ => match lax_float lax r with
         | inl f => mret (VFloat f)
         | inr e => raise [line e]
         end
  end.

Definition validate_str (r : raw) : M value :=
  match r with
  | RStr s => mret (VStr s)
  | _ => match lax_str lax r with
         | Some s => mret (VStr s)
         | None => raise [line string_type]
         end
  end.

(** [Literal[...]] of strings: the input must be one of them. *)
Definition validate_literal (allowed : list string) (r : raw) : M value :=
  match r with
  | RStr s => if existsb (String.eqb s) allowed then mret (VStr s)
              else raise [line (literal_error allowed)]
  | _ => raise [line (literal_error allowed)]
  end.

(** [validate t r]: the value of an input [r] for the annotation [t].
    [validate_model m kw]: the call of the class [m] with the keywords [kw];
    keywords that name no field are ignored.
    [validate_field f kw]: the attribute of one field, from its keyword or,
    when that is absent, from its default: the declared value, or the result
    of calling the factory.  A default is not validated against the
    annotation. *)
Fixpoint validate (t : ftype) (r : raw) {struct t} : M value :=
  match t with
  | TBool => validate_bool r
  | TInt => validate_int r
  | TFloat => validate_float r
  | TStr => validate_str r
  | TLiteral allowed => validate_literal allowed r
  | TList elem =>
      match r with
      | RList items =>
          vs ← collect_items (validate elem) items;
          alloc (OList vs)
      | _ => raise [line list_type]
      end
  | TOptional t' =>
      match r with
      | RNone => mret VNone
      | _ => validate t' r
      end
  | TModel m =>
      match r with
      | RDict kw => validate_model m kw
      | _ => raise [line (model_type (cls_of m))]
      end
  end
with validate_model (m : model) (kw : list (string * raw)) {struct m} : M value :=
  match m with
  | Model cls fs =>
      attrs ← collect (fun f => validate_field f kw) fs;
      alloc (OInstance cls attrs)
  end
with validate_field (f : field) (kw : list (string * raw)) {struct f} : M (string * value) :=
  match f with
  | Field name t d =>
      v ← nested (LKey name)
            match dict_get name kw with
            | Some r => validate t r
            | None =>
                match d with
                | Required => raise [line missing]
                | Default v => default_value v
                | DefaultFactory m kwargs => validate_model m kwargs
                end
            end;
      mret (name, v)
  end.

(** ** The classes of settings.py, in source order *)

(** A field whose [Field(...)] gives a [default=], a [default_factory=] or
    neither; [description=] has no effect on validation and is left out. *)

(** The class statement of [CorsSettings] evaluates its three list displays
    once; the field declarations keep references to the resulting lists.
    [allow_origin_regex] is annotated [list[str]] and declared with
    [default=None]. *)
Definition CorsSettings_class : M model :=
  allow_origins ← alloc (OList []);
  allow_methods ← alloc (OList [VStr "GET"]);
  allow_headers ← alloc (OList []);
  mret (Model "CorsSettings" [
    Field "enabled" TBool (Default (VBool false));
    Field "allow_credentials" TBool (Default (VBool false));
    Field "allow_origins" (TList TStr) (Default allow_origins);
    Field "allow_origin_regex" (TList TStr) (Default VNone);
    Field "allow_methods" (TList TStr) (Default allow_methods);
    Field "allow_headers" (TList TStr) (Default allow_headers)
  ]).

Definition BasicAuthSettings : model :=
  Model "BasicAuthSettings" [
    Field "enabled" TBool (Default (VBool false));
    Field "secret" TStr Required
  ].

Definition JWTAuthSettings : model :=
  Model "JWTAuthSettings" [
    Field "enabled" TBool (Default (VBool false));
    Field "jwks_url" TStr Required;
    Field "ingest_claim" TStr (Default (VStr "ingest"));
    Field "user_id_claim" TStr (Default (VStr "sub"));
    Field "audience" TStr (Default (VStr "privateGPT"))
  ].

(** The class statement of [ServerSettings] evaluates
    [CorsSettings(enabled=False)] once, for [default=]; the two lambdas are
    only called when a default is needed. *)
Definition ServerSettings_class (CorsSettings : model) : M model :=
  cors ← validate_model CorsSettings [("enabled", RBool false)];
  mret (Model "ServerSettings" [
    Field "env_name" TStr Required;
    Field "port" TInt Required;
    Field "cors" (TModel CorsSettings) (Default cors);
    Field "basic_auth" (TModel BasicAuthSettings)
      (DefaultFactory BasicAuthSettings
         [("enabled", RBool false); ("secret", RStr "secret-key")]);
    Field "jwt_auth" (TModel JWTAuthSettings)
      (DefaultFactory JWTAuthSettings
         [("enabled", RBool false);
          ("jwks_url", RStr "https://example.com/.well-known/jwks.json")])
  ]).

Definition DataSettings : model :=
  Model "DataSettings" [ Field "local_data_folder" TStr Required ].

Definition llm_modes : list string := ["local"; "openai"; "sagemaker"; "mock"].

Definition LLMSettings : model :=
  Model "LLMSettings" [ Field "mode" (TLiteral llm_modes) Required ].

Definition VectorstoreSettings : model :=
  Model "VectorstoreSettings" [
    Field "database" (TLiteral ["chroma"; "qdrant"]) Required;
    Field "collection_name" TStr (Default (VStr "privateGPT"))
  ].

Definition RedisSettings : model :=
  Model "RedisSettings" [
    Field "host" TStr (Default (VStr "redis"));
    Field "port" TInt (Default (VInt 6379))
  ].

Definition DynamoDBSettings : model :=
  Model "DynamoDBSettings" [
    Field "table_name" TStr (Default (VStr "dummy_table"))
  ].

Definition store_databases : list string := ["disk"; "redis"; "dynamodb"].

Definition DocumentstoreSettings : model :=
  Model "DocumentstoreSettings" [
    Field "database" (TLiteral store_databases) (Default (VStr "disk"));
    Field "namespace" TStr (Default (VStr "private_gpt_documents"));
    Field "redis" (TModel RedisSettings)
      (DefaultFactory RedisSettings [("host", RStr "redis"); ("port", RInt 6379)]);
    Field "dynamodb" (TModel DynamoDBSettings)
      (DefaultFactory DynamoDBSettings [("table_name", RStr "dummy_table")])
  ].

Definition IndexstoreSettings : model :=
  Model "IndexstoreSettings" [
    Field "database" (TLiteral store_databases) (Default (VStr "disk"));
    Field "namespace" TStr (Default (VStr "private_gpt_index"));
    Field "redis" (TModel RedisSettings)
      (DefaultFactory RedisSettings [("host", RStr "redis"); ("port", RInt 6379)]);
    Field "dynamodb" (TModel DynamoDBSettings)
      (DefaultFactory DynamoDBSettings [("table_name", RStr "dummy_table")])
  ].

Definition LocalSettings : model :=
  Model "LocalSettings" [
    Field "llm_hf_repo_id" TStr Required;
    Field "llm_hf_model_file" TStr Required;
    Field "embedding_hf_model_name" TStr Required
  ].

Definition SagemakerSettings : model :=
  Model "SagemakerSettings" [
    Field "llm_endpoint_name" TStr Required;
    Field "embedding_endpoint_name" TStr Required
  ].

Definition OpenAISettings : model :=
  Model "OpenAISettings" [ Field "api_key" TStr Required ].

Definition UISettings : model :=
  Model "UISettings" [
    Field "enabled" TBool Required;
    Field "path" TStr Required
  ].

Definition QdrantSettings : model :=
  Model "QdrantSettings" [
    Field "location" (TOptional TStr) (Default VNone);
    Field "url" (TOptional TStr) (Default VNone);
    Field "port" (TOptional TInt) (Default (VInt 6333));
    Field "grpc_port" (TOptional TInt) (Default (VInt 6334));
    Field "prefer_grpc" (TOptional TBool) (Default (VBool false));
    Field "https" (TOptional TBool) (Default VNone);
    Field "api_key" (TOptional TStr) (Default VNone);
    Field "prefix" (TOptional TStr) (Default VNone);
    Field "timeout" (TOptional TFloat) (Default VNone);
    Field "host" (TOptional TStr) (Default VNone);
    Field "path" (TOptional TStr) (Default VNone);
    Field "force_disable_check_same_thread" (TOptional TBool) (Default (VBool true))
  ].

Definition Settings_class (ServerSettings : model) : model :=
  Model "Settings" [
    Field "server" (TModel ServerSettings) Required;
    Field "data" (TModel DataSettings) Required;
    Field "ui" (TModel UISettings) Required;
    Field "llm" (TModel LLMSettings) Required;
    Field "local" (TModel LocalSettings) Required;
    Field "sagemaker" (TModel SagemakerSettings) Required;
    Field "openai" (TModel OpenAISettings) Required;
    Field "vectorstore" (TModel VectorstoreSettings) Required;
    Field "indexstore" (TModel IndexstoreSettings) Required;
    Field "documentstore" (TModel DocumentstoreSettings) Required;
    Field "qdrant" (TOptional (TModel QdrantSettings)) (Default VNone)
  ].

(** Executing the class statements, top to bottom. *)
Definition class_statements : M (model * model * model) :=
  CorsSettings ← CorsSettings_class;
  ServerSettings ← ServerSettings_class CorsSettings;
  mret (CorsSettings, ServerSettings, Settings_class ServerSettings).

(** The classes as they stand once the module body has run in an empty heap,
    and the heap of class-level default objects it leaves. *)
Definition module_heap : heap := Eval vm_compute in snd (class_statements []).

Definition CorsSettings : model :=
  Eval vm_compute in
    match fst (class_statements []) with
    | Ok (c, _, _) => c
    | Raise _ => Model "" []
    end.

Definition ServerSettings : model :=
  Eval vm_compute in
    match fst (class_statements []) with
    | Ok (_, s, _) => s
    | Raise _ => Model "" []
    end.

Definition Settings : model := Settings_class ServerSettings.

(** The module-level statement that calls [Settings] with the entries of
    [unsafe_settings] as keywords, for the mapping
    [unsafe_settings] that [load_active_settings()] returned. *)
Definition unsafe_typed_settings (unsafe_settings : list (string * raw)) : M value :=
  validate_model Settings unsafe_settings.

End Binder.

Arguments validate_literal : simpl never.

(** The attribute computation inside [validate_field], as a function of the
    keyword looked up: the input when there is one, the default otherwise. *)
Definition absent_field (lax : conversions) (d : default) : M value :=
  match d with
  | Required => raise [line missing]
  | Default v => default_value v
  | DefaultFactory m kwargs => validate_model lax m kwargs
  end.

Definition field_input (lax : conversions) (t : ftype) (d : default) (o : option raw) : M value :=
  match o with
  | Some r => validate lax t r
  | None => absent_field lax d
  end.

(** The declaration of the field called [n]. *)
Fixpoint find_field (n : string) (fs : list field) : option field :=
  match fs with
  | [] => None
  | f :: fs' => if String.eqb (fname_of f) n then Some f else find_field n fs'
  end.

(** [r[k1][k2]...] in a raw mapping, when every step is a mapping with that key. *)
Fixpoint raw_path (r : raw) (path : list string) : option raw :=
  match path with
  | [] => Some r
  | k :: path' =>
      match r with
      | RDict d =>
          match dict_get k d with
          | Some r' => raw_path r' path'
          | None => None
          end
      | _ => None
      end
  end.

(** ** Reading the heap *)

(** [v.name] for a reference to an instance. *)
Definition getattr (h : heap) (v : value) (name : string) : option value :=
  match v with
  | VRef a =>
      match h !! a with
      | Some (OInstance _ attrs) => dict_get name attrs
      | _ => None
      end
  | _ => None
  end.

(** [v.n1.n2...]. *)
Fixpoint getpath (h : heap) (v : value) (path : list string) : option value :=
  match path with
  | [] => Some v
  | n :: path' =>
      match getattr h v n with
      | Some v' => getpath h v' path'
      | None => None
      end
  end.

(** The values an object holds. *)
Definition obj_values (o : object) : list value :=
  match o with
  | OList items => items
  | OInstance _ attrs => map snd attrs
  end.

(** The object at address [a] is part of the object graph of [v]. *)
Inductive reach (h : heap) : value -> addr -> Prop :=
| reach_here a : reach h (VRef a) a
| reach_step a o v b :
    h !! a = Some o -> In v (obj_values o) -> reach h v b -> reach h (VRef a) b.

(** [v] is a scalar or a reference into the addresses [lo <= a < hi]. *)
Definition val_in (lo hi : nat) (v : value) : Prop :=
  match v with
  | VRef a => (lo <= a < hi)%nat
  | _ => True
  end.

Definition obj_in (lo hi : nat) (o : object) : Prop :=
  Forall (val_in lo hi) (obj_values o).

(** [h'] is [h] followed by new objects that only refer to one another. *)
Definition extends (h h' : heap) : Prop :=
  exists ext, h' = h ++ ext /\ Forall (obj_in (length h) (length h')) ext.

(** The objects a copy of the class-level [cors] default adds to a heap that
    ends at address [n]: its three lists, then the instance. *)
Definition cors_default_copy (n : nat) : list object :=
  [OList []; OList [VStr "GET"]; OList [];
   OInstance "CorsSettings"
     [("enabled", VBool false); ("allow_credentials", VBool false);
      ("allow_origins", VRef n); ("allow_origin_regex", VNone);
      ("allow_methods", VRef (1 + n)); ("allow_headers", VRef (2 + n))]].

(** ** Required fields absent from a mapping *)

(** The model an annotation stands for, directly or as [m | None]. *)
Fixpoint model_of (t : ftype) : option model :=
  match t with
  | TModel m => Some m
  | TOptional t' => model_of t'
  | _ => None
  end.

(** [absent_in m kw p]: the dotted path [p] names a field that declares no
    default and that the mapping [kw] does not give, every group on the way
    being a mapping that [kw] does give. *)
Inductive absent_in : model -> list (string * raw) -> list string -> Prop :=
| absent_here cls fs kw n t :
    In (Field n t Required) fs -> dict_get n kw = None ->
    absent_in (Model cls fs) kw [n]
| absent_below cls fs kw n t d m kw' p :
    In (Field n t d) fs -> model_of t = Some m ->
    dict_get n kw = Some (RDict kw') -> absent_in m kw' p ->
    absent_in (Model cls fs) kw (n :: p).

(** ** The merged mapping of the end-to-end example *)

(** [d[k] = v]: in place when the key is there, at the end otherwise. *)
Fixpoint dict_set (k : string) (v : raw) (d : list (string * raw)) : list (string * raw) :=
  match d with
  | [] => [(k, v)]
  | (k', v') :: d' => if String.eqb k' k then (k, v) :: d' else (k', v') :: dict_set k v d'
  end.

(** Modelled from the spec: the Merge Engine of [settings_loader], which is
    not among the sources.  "For each key in the next layer: if both
    accumulator and next layer have a nested mapping at that key, recurse;
    otherwise the next layer's value replaces the accumulator's value at that
    key wholesale.  Keys present only in the accumulator are preserved." *)
Fixpoint merge_value (next acc : raw) {struct next} : raw :=
  match next with
  | RDict n =>
      match acc with
      | RDict a =>
          RDict ((fix go (n a : list (string * raw)) {struct n} : list (string * raw) :=
                    match n with
                    | [] => a
                    | (k, v) :: n' =>
                        go n' (dict_set k
                                 match dict_get k a with
                                 | Some av => merge_value v av
                                 | None => v
                                 end a)
                    end) n a)
      | _ => next
      end
  | _ => next
  end.

(** Modelled from the spec: "fold the ordered RawLayers left-to-right into an
    accumulator, initially empty". *)
Definition merge_layers (layers : list raw) : raw :=
  fold_left (fun acc next => merge_value next acc) layers (RDict []).

(** The base layer of the end-to-end example; the spec elides the contents of
    [local] and [sagemaker]. *)
Definition example_base (local_kw sagemaker_kw : list (string * raw)) : raw :=
  RDict [
    ("server", RDict [("env_name", RStr "prod"); ("port", RInt 8001)]);
    ("llm", RDict [("mode", RStr "mock")]);
    ("vectorstore", RDict [("database", RStr "chroma")]);
    ("documentstore", RDict [("database", RStr "disk")]);
    ("indexstore", RDict [("database", RStr "disk")]);
    ("data", RDict [("local_data_folder", RStr "/data")]);
    ("ui", RDict [("enabled", RBool true); ("path", RStr "/")]);
    ("local", RDict local_kw);
    ("sagemaker", RDict sagemaker_kw);
    ("openai", RDict [("api_key", RStr "")])
  ].

Definition example_overlay : raw :=
  RDict [
    ("server", RDict [("port", RInt 9000)]);
    ("documentstore",
       RDict [("database", RStr "redis");
              ("redis", RDict [("host", RStr "myredis"); ("port", RInt 6380)])])
  ].

(** The base layer overlaid with the profile. *)
Definition example_merged (local_kw sagemaker_kw : list (string * raw)) : list (string * raw) :=
  [
    ("server", RDict [("env_name", RStr "prod"); ("port", RInt 9000)]);
    ("llm", RDict [("mode", RStr "mock")]);
    ("vectorstore", RDict [("database", RStr "chroma")]);
    ("documentstore",
       RDict [("database", RStr "redis");
              ("redis", RDict [("host", RStr "myredis"); ("port", RInt 6380)])]);
    ("indexstore", RDict [("database", RStr "disk")]);
    ("data", RDict [("local_data_folder", RStr "/data")]);
    ("ui", RDict [("enabled", RBool true); ("path", RStr "/")]);
    ("local", RDict local_kw);
    ("sagemaker", RDict sagemaker_kw);
    ("openai", RDict [("api_key", RStr "")])
  ].

(** Contents for the two elided groups. *)
Definition example_local : list (string * raw) :=
  [("llm_hf_repo_id", RStr "TheBloke/Mistral-7B-Instruct-v0.1-GGUF");
   ("llm_hf_model_file", RStr "mistral-7b-instruct-v0.1.Q4_K_M.gguf");
   ("embedding_hf_model_name", RStr "BAAI/bge-small-en-v1.5")].

Definition example_sagemaker : list (string * raw) :=
  [("llm_endpoint_name", RStr "llm-endpoint");
   ("embedding_endpoint_name", RStr "embedding-endpoint")].

(** ** The accessor *)

(** Modelled from the spec: [global_injector] of [private_gpt.di], which is
    not among the sources: "the dependency-injection container that caches
    and returns the singleton", resolved "keyed by the RootSettings type".
    A container holds the instances bound to a type and the instances it has
    resolved so far. *)
Record injector : Type := Injector {
  bound : list (string * value);
  resolved : list (string * value)
}.

(** Modelled from the spec: [injector.get(key)], the cached instance when
    there is one, otherwise the bound instance, which is then cached. *)
Definition injector_get (key : string) (inj : injector) : option value * injector :=
  match dict_get key (resolved inj) with
  | Some v => (Some v, inj)
  | None =>
      match dict_get key (bound inj) with
      | Some v => (Some v, Injector (bound inj) ((key, v) :: resolved inj))
      | None => (None, inj)
      end
  end.

(** Modelled from the spec: the container of a process that has imported the
    module, with [Settings] bound to the module-level [unsafe_typed_settings]
    ("visible just for DI or testing purposes") and nothing resolved yet. *)
Definition global_injector (typed : value) : injector :=
  Injector [("Settings", typed)] [].

(** [settings()]: [return global_injector.get(Settings)]. *)
Definition settings (inj : injector) : option value * injector :=
  injector_get "Settings" inj.

(** The two access paths. *)
Inductive access : Type :=
| ViaInjector
| ViaSettings.

Definition access_settings (a : access) (inj : injector) : option value * injector :=
  match a with
  | ViaInjector => injector_get "Settings" inj
  | ViaSettings => settings inj
  end.

(** The references a sequence of accesses obtains. *)
Fixpoint run_accesses (l : list access) (inj : injector) : list (option value) :=
  match l with
  | [] => []
  | a :: l' =>
      let '(r, inj') := access_settings a inj in
      r :: run_accesses l' inj'
  end.

(** ** Example inputs *)

(** The merged example with the elided groups filled in. *)
Definition example_settings : list (string * raw) :=
  example_merged example_local example_sagemaker.

(** The example without [server.env_name], without [data.local_data_folder],
    without [openai.api_key]. *)
Definition example_without_env_name : list (string * raw) :=
  dict_set "server" (RDict [("port", RInt 9000)]) example_settings.

Definition example_without_data_folder : list (string * raw) :=
  dict_set "data" (RDict []) example_settings.

Definition example_without_api_key : list (string * raw) :=
  dict_set "openai" (RDict []) example_settings.

(** The example with an [llm.mode] outside the literal set. *)
Definition example_bad_mode : list (string * raw) :=
  dict_set "llm" (RDict [("mode", RStr "gpt4all")]) example_settings.

(** The example with store groups that give no [database]. *)
Definition example_stores_without_database : list (string * raw) :=
  dict_set "indexstore" (RDict [])
    (dict_set "documentstore" (RDict [("namespace", RStr "docs")]) example_settings).

(** Two constructions in a row from the example, with no conversion, right
    after the class statements: the instances and the heaps. *)
Definition example_run1 : result value * heap :=
  Eval vm_compute in unsafe_typed_settings exact_only example_settings module_heap.

Definition example_heap1 : heap := snd example_run1.

Definition example_instance1 : value :=
  match fst example_run1 with
  | Ok v => v
  | Raise _ => VNone
  end.

Definition example_run2 : result value * heap :=
  Eval vm_compute in unsafe_typed_settings exact_only example_settings example_heap1.

Definition example_heap2 : heap := snd example_run2.

Definition example_instance2 : value :=
  match fst example_run2 with
  | Ok v => v
  | Raise _ => VNone
  end.

(** ** Constructions in sequence, and further example inputs *)

(** The heap left by constructing [Settings] from each mapping in turn,
    whether a construction succeeds or raises. *)
Fixpoint construct_all (lax : conversions) (raws : list (list (string * raw))) (h : heap)
  : heap :=
  match raws with
  | [] => h
  | r :: raws' => construct_all lax raws' (snd (unsafe_typed_settings lax r h))
  end.

(** Conversions that take [0] and [1] for a [bool] and a boolean for an
    [int], as the lax mode does, refuse any other integer for a [bool] with
    [bool_parsing] and a string for an [int] with [int_parsing], and refuse
    the rest with the [.._type] line. *)
Definition example_conversions : conversions :=
  Conversions
    (fun r => match r with
              | RInt 0 => inl false
              | RInt 1 => inl true
              | RInt _ => inr bool_parsing
              | _ => inr bool_type
              end)
    (fun r => match r with
              | RBool b => inl (if b then 1 else 0)
              | RStr _ => inr int_parsing
              | _ => inr int_type
              end)
    (fun _ => inr float_type)
    (fun _ => None).

(** The example with a key that names no field of [Settings]. *)
Definition example_with_unknown_key : list (string * raw) :=
  ("telemetry", RDict [("enabled", RBool true)]) :: example_settings.

(** A [server] group that gives every sub-group. *)
Definition example_server : list (string * raw) :=
  [("env_name", RStr "prod"); ("port", RInt 9000);
   ("cors", RDict [("enabled", RBool true);
                   ("allow_origins",
                    RList [RStr "http://localhost:3000"; RStr "https://example.com"])]);
   ("basic_auth", RDict [("secret", RStr "Basic c2VjcmV0")]);
   ("jwt_auth", RDict [("jwks_url", RStr "https://idp.example.com/jwks.json");
                       ("audience", RStr "pgpt")])].

Definition example_with_server : list (string * raw) :=
  dict_set "server" (RDict example_server) example_settings.

Definition example_run_server : result value * heap :=
  Eval vm_compute in unsafe_typed_settings exact_only example_with_server module_heap.

Definition example_heap_server : heap := snd example_run_server.

Definition example_instance_server : value :=
  match fst example_run_server with
  | Ok v => v
  | Raise _ => VNone
  end.

(** The example with that [server] group changed at one key, and with its
    [cors] group changed at one key. *)
Definition example_server_with (k : string) (r : raw) : list (string * raw) :=
  dict_set "server" (RDict (dict_set k r example_server)) example_settings.

Definition example_cors_with (k : string) (r : raw) : list (string * raw) :=
  example_server_with "cors" (RDict [("enabled", RBool true); (k, r)]).


(** The example with a [vectorstore.database] outside the literal set, with
    [data] given as a string, with [qdrant] given as null, and with a
    [qdrant] group. *)
Definition example_bad_vectorstore : list (string * raw) :=
  dict_set "vectorstore" (RDict [("database", RStr "pinecone")]) example_settings.

Definition example_data_as_string : list (string * raw) :=
  dict_set "data" (RStr "/data") example_settings.

Definition example_qdrant_null : list (string * raw) :=
  dict_set "qdrant" RNone example_settings.

Definition example_with_qdrant : list (string * raw) :=
  dict_set "qdrant"
    (RDict [("url", RStr "http://qdrant:6333"); ("port", RInt 7000);
            ("prefer_grpc", RBool true); ("timeout", RFloat (S754_finite false 5 1))])
    example_settings.



(** The example with an [indexstore] group whose [redis] gives only a host
    and whose [dynamodb] gives nothing. *)
Definition example_partial_stores : list (string * raw) :=
  dict_set "indexstore"
    (RDict [("database", RStr "redis");
            ("redis", RDict [("host", RStr "myredis")]);
            ("dynamodb", RDict [])])
    example_settings.

Definition example_run_stores : result value * heap :=
  Eval vm_compute in unsafe_typed_settings exact_only example_partial_stores module_heap.

Definition example_heap_stores : heap := snd example_run_stores.

Definition example_instance_stores : value :=
  match fst example_run_stores with
  | Ok v => v
  | Raise _ => VNone
  end.

(** The example without [openai.api_key] and with an [llm.mode] outside the
    literal set. *)
Definition example_two_errors : list (string * raw) :=
  dict_set "llm" (RDict [("mode", RStr "gpt4all")]) example_without_api_key.

(** ** Heap invariants *)

(** A computation that only adds self-contained objects, and whose result
    satisfies [inv] between the old and the new end of the heap. *)
Definition tidy {A : Type} (inv : nat -> nat -> A -> Prop) (m : M A) : Prop :=
  forall h res h', m h = (res, h') ->
    extends h h' /\ forall a, res = Ok a -> inv (length h) (length h') a.

Definition widens {A : Type} (inv : nat -> nat -> A -> Prop) : Prop :=
  forall lo hi lo' hi' a,
    (lo' <= lo)%nat -> (hi <= hi')%nat -> inv lo hi a -> inv lo' hi' a.

(** ** Basic facts about the heap *)

Lemma val_in_mono lo hi lo' hi' v :
  (lo' <= lo)%nat -> (hi <= hi')%nat -> val_in lo hi v -> val_in lo' hi' v.
Proof. destruct v; simpl; lia. Qed.

Lemma obj_in_mono lo hi lo' hi' o :
  (lo' <= lo)%nat -> (hi <= hi')%nat -> obj_in lo hi o -> obj_in lo' hi' o.
Proof.
  intros Hlo Hhi Ho. unfold obj_in in *.
  eapply Forall_impl; [exact Ho |].
  intros v. now apply val_in_mono.
Qed.

Lemma extends_refl h : extends h h.
Proof. exists []. split; [now rewrite app_nil_r | constructor]. Qed.

Lemma extends_length h h' : extends h h' -> (length h <= length h')%nat.
Proof. intros (ext & -> & _). rewrite length_app. lia. Qed.

Lemma extends_prefix h h' : extends h h' -> h `prefix_of` h'.
Proof. intros (ext & -> & _). now exists ext. Qed.

Lemma extends_trans h1 h2 h3 : extends h1 h2 -> extends h2 h3 -> extends h1 h3.
Proof.
  intros (e1 & -> & H1) (e2 & -> & H2).
  exists (e1 ++ e2). split; [now rewrite app_assoc |].
  apply Forall_app. split.
  - eapply Forall_impl; [exact H1 |]. intros o. apply obj_in_mono; [lia |].
    rewrite !length_app. lia.
  - eapply Forall_impl; [exact H2 |]. intros o. apply obj_in_mono; [| lia].
    rewrite !length_app. lia.
Qed.

Lemma extends_snoc h h1 o :
  extends h h1 -> obj_in (length h) (S (length h1)) o -> extends h (h1 ++ [o]).
Proof.
  intros (e & -> & He) Ho. exists (e ++ [o]). split; [now rewrite app_assoc |].
  rewrite !length_app in *. simpl in *.
  apply Forall_app. split.
  - eapply Forall_impl; [exact He |]. intros o'. apply obj_in_mono; lia.
  - constructor; [| constructor]. revert Ho. apply obj_in_mono; lia.
Qed.

(** The objects added by an extension hold references into the extension. *)
Lemma extends_new_obj h h' a o :
  extends h h' -> (length h <= a)%nat -> h' !! a = Some o ->
  obj_in (length h) (length h') o.
Proof.
  intros (e & -> & He) Ha Hl.
  rewrite lookup_app_r in Hl by lia.
  rewrite Forall_forall in He. apply He.
  eapply list_elem_of_lookup_2. exact Hl.
Qed.

(** Everything reachable from a value inside an extension lies inside it, as
    long as its objects are those of the extension. *)
Lemma reach_in_extension h1 h2 h v a :
  extends h1 h2 -> h2 `prefix_of` h -> val_in (length h1) (length h2) v ->
  reach h v a -> (length h1 <= a < length h2)%nat.
Proof.
  intros He Hp Hv Hr. induction Hr as [a | a o v b Ha Hin Hr IH].
  - exact Hv.
  - apply IH. simpl in Hv.
    assert (Ho : h2 !! a = Some o).
    { destruct (h2 !! a) as [o' |] eqn:E.
      - pose proof (prefix_lookup_Some _ _ _ _ E Hp). congruence.
      - apply lookup_ge_None in E. lia. }
    pose proof (extends_new_obj _ _ _ _ He (proj1 Hv) Ho) as Hobj.
    unfold obj_in in Hobj. rewrite Forall_forall in Hobj.
    apply Hobj. now apply list_elem_of_In.
Qed.

(** ** What validation does to the heap *)

Lemma Forall_snd_zip {A B : Type} (P : B -> Prop) (xs : list A) (ys : list B) :
  Forall P ys -> Forall P (map snd (zip xs ys)).
Proof.
  intros H. revert xs. induction H as [| y ys Hy _ IH]; intros [| x xs]; simpl;
    try constructor; auto.
Qed.

Lemma copy_each_extends (copy : value -> heap -> option value * heap) vs :
  (forall v h r h', copy v h = (r, h') ->
     extends h h' /\ forall v', r = Some v' -> val_in (length h) (length h') v') ->
  forall h r h', copy_each copy vs h = (r, h') ->
    extends h h' /\
    forall vs', r = Some vs' -> Forall (val_in (length h) (length h')) vs'.
Proof.
  intros Hc. induction vs as [| v vs IH]; intros h r h' E; simpl in E.
  - injection E as <- <-. split; [apply extends_refl |].
    intros vs' [= <-]. constructor.
  - destruct (copy v h) as [[v1 |] h1] eqn:E1.
    + destruct (Hc _ _ _ _ E1) as [X1 Y1].
      destruct (copy_each copy vs h1) as [[vs1 |] h2] eqn:E2;
        destruct (IH _ _ _ E2) as [X2 Y2]; injection E as <- <-;
        (split; [eapply extends_trans; eassumption |]); [| discriminate].
      intros vs' [= <-]. constructor.
      * eapply val_in_mono; [| | exact (Y1 _ eq_refl)]; [lia |].
        now apply extends_length.
      * eapply Forall_impl; [exact (Y2 _ eq_refl) |].
        intros w. apply val_in_mono; [| lia]. now apply extends_length.
    + destruct (Hc _ _ _ _ E1) as [X1 _]. injection E as <- <-.
      split; [exact X1 | discriminate].
Qed.

Lemma deepcopy_extends fuel : forall v h r h',
  deepcopy fuel v h = (r, h') ->
  extends h h' /\ forall v', r = Some v' -> val_in (length h) (length h') v'.
Proof.
  induction fuel as [| fuel IH]; intros v h r h' E.
  - destruct v; simpl in E; injection E as <- <-;
      (split; [apply extends_refl |]); intros v' [= <-]; exact I.
  - destruct v; simpl in E;
      try (injection E as <- <-; (split; [apply extends_refl |]);
           intros v' [= <-]; exact I).
    destruct (h !! a) as [[items | cls attrs] |] eqn:Ea.
    + destruct (copy_each (deepcopy fuel) items h) as [[items' |] h1] eqn:E1;
        destruct (copy_each_extends _ _ IH _ _ _ E1) as [X Y];
        injection E as <- <-; [| split; [exact X | discriminate]].
      pose proof (extends_length _ _ X).
      split.
      * apply extends_snoc; [exact X |]. unfold obj_in; simpl.
        eapply Forall_impl; [exact (Y _ eq_refl) |].
        intros w. apply val_in_mono; lia.
      * intros v' [= <-]. simpl. rewrite length_app. simpl. lia.
    + destruct (copy_each (deepcopy fuel) (map snd attrs) h) as [[vs' |] h1] eqn:E1;
        destruct (copy_each_extends _ _ IH _ _ _ E1) as [X Y];
        injection E as <- <-; [| split; [exact X | discriminate]].
      pose proof (extends_length _ _ X).
      split.
      * apply extends_snoc; [exact X |]. unfold obj_in; simpl.
        apply Forall_snd_zip.
        eapply Forall_impl; [exact (Y _ eq_refl) |].
        intros w. apply val_in_mono; lia.
      * intros v' [= <-]. simpl. rewrite length_app. simpl. lia.
    + injection E as <- <-. split; [apply extends_refl | discriminate].
Qed.

Lemma tidy_ret {A : Type} (inv : nat -> nat -> A -> Prop) (a : A) :
  (forall n, inv n n a) -> tidy inv (mret a).
Proof.
  intros Ha h res h' [= <- <-]. split; [apply extends_refl |].
  intros a' [= <-]. apply Ha.
Qed.

Lemma tidy_raise {A : Type} (inv : nat -> nat -> A -> Prop) es : tidy inv (raise es).
Proof. intros h res h' [= <- <-]. split; [apply extends_refl | discriminate]. Qed.

Lemma tidy_nested {A : Type} (inv : nat -> nat -> A -> Prop) i (m : M A) :
  tidy inv m -> tidy inv (nested i m).
Proof.
  intros Hm h res h' E. unfold nested in E.
  destruct (m h) as [[a | es] h1] eqn:E1; destruct (Hm _ _ _ E1) as [X Y];
    injection E as <- <-; (split; [exact X |]); [exact Y | discriminate].
Qed.

Lemma tidy_collect {A B : Type} (inv : nat -> nat -> B -> Prop) (f : A -> M B) l :
  widens inv ->
  (forall x, In x l -> tidy inv (f x)) ->
  tidy (fun lo hi => Forall (inv lo hi)) (collect f l).
Proof.
  intros Hw. induction l as [| x l IH]; intros Hf h res h' E; simpl in E.
  - injection E as <- <-. split; [apply extends_refl |].
    intros bs [= <-]. constructor.
  - assert (Hx : tidy inv (f x)) by (apply Hf; now left).
    assert (Hl : forall y, In y l -> tidy inv (f y)) by (intros y Hy; apply Hf; now right).
    specialize (IH Hl).
    destruct (f x h) as [[b | es1] h1] eqn:E1; destruct (Hx _ _ _ E1) as [X1 Y1];
      destruct (collect f l h1) as [[bs | es2] h2] eqn:E2;
      destruct (IH _ _ _ E2) as [X2 Y2]; injection E as <- <-;
      (split; [eapply extends_trans; eassumption |]); try discriminate.
    intros bs' [= <-].
    pose proof (extends_length _ _ X1). pose proof (extends_length _ _ X2).
    constructor.
    + eapply Hw; [| | exact (Y1 _ eq_refl)]; lia.
    + eapply Forall_impl; [exact (Y2 _ eq_refl) |].
      intros w. apply Hw; lia.
Qed.

Lemma widens_val_in : widens val_in.
Proof. intros lo hi lo' hi' v. apply val_in_mono. Qed.

Lemma widens_attr : widens (fun lo hi (b : string * value) => val_in lo hi (snd b)).
Proof. intros lo hi lo' hi' [n v]. apply val_in_mono. Qed.

(** Allocating an object whose content lies between [lo] and the current end. *)
Lemma tidy_bind_alloc {A : Type} (inv : nat -> nat -> A -> Prop) (m : M A) (mk : A -> object) :
  tidy inv m ->
  (forall lo hi a, inv lo hi a -> obj_in lo hi (mk a)) ->
  tidy val_in (a ← m; alloc (mk a)).
Proof.
  intros Hm Hmk h res h' E. unfold mbind, M_bind in E.
  destruct (m h) as [[a | es] h1] eqn:E1; destruct (Hm _ _ _ E1) as [X Y].
  - unfold alloc in E. injection E as <- <-.
    pose proof (extends_length _ _ X).
    split.
    + apply extends_snoc; [exact X |].
      eapply obj_in_mono; [| | apply Hmk, (Y _ eq_refl)]; lia.
    + intros v [= <-]. simpl. rewrite length_app. simpl. lia.
  - injection E as <- <-. split; [exact X | discriminate].
Qed.

Lemma tidy_default_value v : tidy val_in (default_value v).
Proof.
  intros h res h' E. unfold default_value in E.
  destruct (hashable v) eqn:Hh.
  - injection E as <- <-. split; [apply extends_refl |].
    intros a [= <-]. destruct v; simpl in *; try exact I; discriminate.
  - destruct (deepcopy (length h) v h) as [[v' |] h1] eqn:E1;
      destruct (deepcopy_extends _ _ _ _ _ E1) as [X Y]; injection E as <- <-;
      (split; [exact X |]); [| discriminate].
    intros a [= <-]. now apply Y.
Qed.

Section Properties.

Context (lax : conversions).

Lemma tidy_validate_field_body n (m : M value) :
  tidy val_in m ->
  tidy (fun lo hi (b : string * value) => val_in lo hi (snd b))
       (v ← nested (LKey n) m; mret (n, v)).
Proof.
  intros Hm h res h' E. unfold mbind, M_bind in E.
  destruct (nested (LKey n) m h) as [[v | es] h1] eqn:E1;
    destruct (tidy_nested _ _ _ Hm _ _ _ E1) as [X Y]; injection E as <- <-;
    (split; [exact X |]); [| discriminate].
  intros a [= <-]. simpl. now apply Y.
Qed.

(** Validation only appends to the heap, the objects it appends refer to one
    another only, and the value it returns is a scalar or one of them. *)
Lemma tidy_validate :
  (forall t r, tidy val_in (validate lax t r)) /\
  (forall m kw, tidy val_in (validate_model lax m kw)) /\
  (forall f kw,
     tidy (fun lo hi (b : string * value) => val_in lo hi (snd b))
          (validate_field lax f kw)).
Proof.
  assert (Hsc : forall (m : M value),
            (forall h res h', m h = (res, h') ->
               h' = h /\ forall v, res = Ok v -> hashable v = true) ->
            tidy val_in m).
  { intros m Hm h res h' E. destruct (Hm _ _ _ E) as [-> Hv].
    split; [apply extends_refl |]. intros v Ev. specialize (Hv _ Ev).
    destruct v; simpl in *; try exact I; discriminate. }
  pose (P := fun t => forall r, tidy val_in (validate lax t r)).
  pose (Q := fun m => forall kw, tidy val_in (validate_model lax m kw)).
  pose (F := fun f => forall kw,
     tidy (fun lo hi (b : string * value) => val_in lo hi (snd b))
          (validate_field lax f kw)).
  assert (HP : forall t, P t).
  { apply (ftype_schema_ind P Q F); subst P Q F; simpl.
    - intros r. apply Hsc. intros h res h' E. unfold validate_bool in E.
      destruct r; try (injection E as <- <-; split; [reflexivity |]; intros v [= <-]; reflexivity);
        destruct (lax_bool lax _); injection E as <- <-;
        (split; [reflexivity |]); intros v [= <-]; reflexivity.
    - intros r. apply Hsc. intros h res h' E. unfold validate_int in E.
      destruct r; try (injection E as <- <-; split; [reflexivity |]; intros v [= <-]; reflexivity);
        destruct (lax_int lax _); injection E as <- <-;
        (split; [reflexivity |]); intros v [= <-]; reflexivity.
    - intros r. apply Hsc. intros h res h' E. unfold validate_float in E.
      destruct r; try (injection E as <- <-; split; [reflexivity |]; intros v [= <-]; reflexivity);
        destruct (lax_float lax _); injection E as <- <-;
        (split; [reflexivity |]); intros v [= <-]; reflexivity.
    - intros r. apply Hsc. intros h res h' E. unfold validate_str in E.
      destruct r; try (injection E as <- <-; split; [reflexivity |]; intros v [= <-]; reflexivity);
        destruct (lax_str lax _); injection E as <- <-;
        (split; [reflexivity |]); intros v [= <-]; reflexivity.
    - intros allowed r. apply Hsc. intros h res h' E. unfold validate_literal in E.
      destruct r; try (injection E as <- <-; split; [reflexivity |]; intros v [= <-]; reflexivity).
      destruct (existsb _ _); injection E as <- <-;
        (split; [reflexivity |]); intros v [= <-]; reflexivity.
    - intros elem IH r. destruct r; try apply tidy_raise.
      apply (tidy_bind_alloc (fun lo hi => Forall (val_in lo hi))); [| intros lo hi a Ha; exact Ha].
      unfold collect_items. apply tidy_collect; [apply widens_val_in |].
      intros [i x] _. apply tidy_nested, IH.
    - intros t IH r. destruct r; try apply IH.
      apply tidy_ret. intros n. exact I.
    - intros m IH r. destruct r; try apply tidy_raise. apply IH.
    - intros cls fs IH kw.
      apply (tidy_bind_alloc (fun lo hi => Forall (fun b : string * value => val_in lo hi (snd b)))).
      + apply tidy_collect; [apply widens_attr |].
        intros f Hf. rewrite Forall_forall in IH. apply IH. now apply list_elem_of_In.
      + intros lo hi a Ha. unfold obj_in; simpl. now apply Forall_map.
    - intros n t IH kw. apply tidy_validate_field_body.
      destruct (dict_get n kw); [apply IH | apply tidy_raise].
    - intros n t v IH kw. apply tidy_validate_field_body.
      destruct (dict_get n kw); [apply IH | apply tidy_default_value].
    - intros n t m kw' IH IHm kw. apply tidy_validate_field_body.
      destruct (dict_get n kw); [apply IH | apply IHm]. }
  assert (HQ : forall m, Q m).
  { intros m kw. specialize (HP (TModel m) (RDict kw)). exact HP. }
  split; [exact HP |]. split; [exact HQ |].
  intros [n t d] kw. subst F; simpl. apply tidy_validate_field_body.
  destruct (dict_get n kw); [apply HP |].
  destruct d; [apply tidy_raise | apply tidy_default_value | apply HQ].
Qed.

Lemma validate_tidy t r : tidy val_in (validate lax t r).
Proof. apply tidy_validate. Qed.

Lemma validate_model_tidy m kw : tidy val_in (validate_model lax m kw).
Proof. apply tidy_validate. Qed.

Lemma validate_field_tidy f kw :
  tidy (fun lo hi (b : string * value) => val_in lo hi (snd b)) (validate_field lax f kw).
Proof. apply tidy_validate. Qed.

Lemma field_input_tidy t d o : tidy val_in (field_input lax t d o).
Proof.
  destruct o as [r |]; simpl; [apply validate_tidy |].
  destruct d; simpl; [apply tidy_raise | apply tidy_default_value | apply validate_model_tidy].
Qed.

(** ** Unfolding the binder *)

Lemma validate_field_eq n t d kw :
  validate_field lax (Field n t d) kw =
  (v ← nested (LKey n) (field_input lax t d (dict_get n kw)); mret (n, v)).
Proof. destruct d; simpl; destruct (dict_get n kw); reflexivity. Qed.


Lemma validate_field_ok n t d kw h b h' :
  validate_field lax (Field n t d) kw h = (Ok b, h') ->
  exists x, b = (n, x) /\ field_input lax t d (dict_get n kw) h = (Ok x, h').
Proof.
  rewrite validate_field_eq. unfold mbind, M_bind, nested.
  destruct (field_input lax t d (dict_get n kw) h) as [[x | es] h1]; intros [= <- <-].
  now exists x.
Qed.

Lemma validate_field_raise n t d kw h es h' :
  validate_field lax (Field n t d) kw h = (Raise es, h') ->
  exists es', es = map (at_loc (LKey n)) es' /\
              field_input lax t d (dict_get n kw) h = (Raise es', h').
Proof.
  rewrite validate_field_eq. unfold mbind, M_bind, nested.
  destruct (field_input lax t d (dict_get n kw) h) as [[x | es'] h1]; intros [= <- <-].
  now exists es'.
Qed.

Lemma validate_field_of_input n t d kw h res h' :
  field_input lax t d (dict_get n kw) h = (res, h') ->
  validate_field lax (Field n t d) kw h =
  (match res with
   | Ok x => Ok (n, x)
   | Raise es => Raise (map (at_loc (LKey n)) es)
   end, h').
Proof.
  intros E. rewrite validate_field_eq. unfold mbind, M_bind, nested. rewrite E.
  now destruct res.
Qed.

Lemma validate_model_eq cls fs kw :
  validate_model lax (Model cls fs) kw =
  (attrs ← collect (fun f => validate_field lax f kw) fs; alloc (OInstance cls attrs)).
Proof. reflexivity. Qed.

(** A model call that returns has run every field, then allocated the instance. *)
Lemma validate_model_ok cls fs kw h v h' :
  validate_model lax (Model cls fs) kw h = (Ok v, h') ->
  exists attrs hm,
    collect (fun f => validate_field lax f kw) fs h = (Ok attrs, hm) /\
    v = VRef (length hm) /\ h' = hm ++ [OInstance cls attrs].
Proof.
  rewrite validate_model_eq. unfold mbind, M_bind, alloc.
  destruct (collect _ fs h) as [[attrs | es] hm]; intros [= <- <-].
  now exists attrs, hm.
Qed.

(** A model call that raises has been failed by its fields. *)
Lemma validate_model_raise cls fs kw h es h' :
  validate_model lax (Model cls fs) kw h = (Raise es, h') ->
  collect (fun f => validate_field lax f kw) fs h = (Raise es, h').
Proof.
  rewrite validate_model_eq. unfold mbind, M_bind, alloc.
  destruct (collect _ fs h) as [[attrs | es'] hm]; intros [= <- <-]. reflexivity.
Qed.

Lemma validate_TModel_ok m r h v h' :
  validate lax (TModel m) r h = (Ok v, h') ->
  exists kw, r = RDict kw /\ validate_model lax m kw h = (Ok v, h').
Proof. destruct r; simpl; try discriminate. intros E. now exists entries. Qed.

(** ** The fields of a collected model *)

Lemma collect_fields_attr n f kw : forall fs h attrs h',
  collect (fun f => validate_field lax f kw) fs h = (Ok attrs, h') ->
  find_field n fs = Some f ->
  exists x hi hi',
    dict_get n attrs = Some x /\
    extends h hi /\ extends hi hi' /\ extends hi' h' /\
    validate_field lax f kw hi = (Ok (n, x), hi').
Proof.
  induction fs as [| f0 fs IH]; intros h attrs h' E Hf; simpl in *; [discriminate |].
  destruct (validate_field lax f0 kw h) as [[b | es1] h1] eqn:E1;
    destruct (collect _ fs h1) as [[bs | es2] h2] eqn:E2; try discriminate.
  injection E as <- <-.
  pose proof (proj1 (validate_field_tidy _ _ _ _ _ E1)) as X1.
  pose proof (proj1 (tidy_collect _ _ fs widens_attr
                       (fun x _ => validate_field_tidy x kw) _ _ _ E2)) as X2.
  destruct f0 as [n0 t0 d0].
  destruct (validate_field_ok _ _ _ _ _ _ _ E1) as (x0 & -> & _).
  simpl in Hf. simpl. destruct (String.eqb n0 n) eqn:En.
  - injection Hf as <-. apply String.eqb_eq in En. subst n0.
    exists x0, h, h1. repeat split; auto using extends_refl.
  - destruct (IH _ _ _ E2 Hf) as (x & hi & hi' & Hd & Y1 & Y2 & Y3 & Y4).
    exists x, hi, hi'. repeat split; eauto using extends_trans.
Qed.

Lemma getattr_prefix h h' v n x :
  h `prefix_of` h' -> getattr h v n = Some x -> getattr h' v n = Some x.
Proof.
  intros Hp. destruct v; simpl; try discriminate.
  destruct (h !! a) as [o |] eqn:E; [| discriminate].
  now rewrite (prefix_lookup_Some _ _ _ _ E Hp).
Qed.

Lemma getpath_prefix h h' : h `prefix_of` h' -> forall p v x,
  getpath h v p = Some x -> getpath h' v p = Some x.
Proof.
  intros Hp. induction p as [| n p IH]; intros v x; simpl; [auto |].
  destruct (getattr h v n) as [v' |] eqn:E; [| discriminate].
  rewrite (getattr_prefix _ _ _ _ _ Hp E). apply IH.
Qed.

Lemma prefix_snoc (h : heap) o : h `prefix_of` h ++ [o].
Proof. now exists [o]. Qed.

(** The attribute [n] of the instance a model call returns is the value its
    field [n] validated to, at some point of the call. *)
Lemma validate_model_attr cls fs kw h v h' n t d :
  validate_model lax (Model cls fs) kw h = (Ok v, h') ->
  find_field n fs = Some (Field n t d) ->
  exists a attrs x hi hi',
    v = VRef a /\ (length h <= a)%nat /\ S a = length h' /\
    h' !! a = Some (OInstance cls attrs) /\
    dict_get n attrs = Some x /\ getattr h' v n = Some x /\
    extends h hi /\ extends hi hi' /\ hi' `prefix_of` h' /\ (length hi' <= a)%nat /\
    val_in (length hi) (length hi') x /\
    field_input lax t d (dict_get n kw) hi = (Ok x, hi').
Proof.
  intros E Hf.
  destruct (validate_model_ok _ _ _ _ _ _ E) as (attrs & hm & Ec & -> & ->).
  destruct (collect_fields_attr _ _ _ _ _ _ _ Ec Hf)
    as (x & hi & hi' & Hd & Y1 & Y2 & Y3 & Y4).
  destruct (validate_field_ok _ _ _ _ _ _ _ Y4) as (x' & [= <-] & Y5).
  assert (Hl : (hm ++ [OInstance cls attrs]) !! length hm = Some (OInstance cls attrs)).
  { rewrite lookup_app_r by lia. now rewrite Nat.sub_diag. }
  exists (length hm), attrs, x, hi, hi'.
  pose proof (extends_length _ _ Y1). pose proof (extends_length _ _ Y2).
  pose proof (extends_length _ _ Y3).
  repeat split; auto; try lia.
  - rewrite length_app. simpl. lia.
  - simpl. now rewrite Hl.
  - etransitivity; [apply extends_prefix, Y3 | apply prefix_snoc].
  - exact (proj2 (field_input_tidy _ _ _ _ _ _ Y5) _ eq_refl).
Qed.

(** ** Failure and success of a collection *)

(** One element that always raises a line makes the collection raise it. *)
Lemma collect_raise_intro {A B : Type} (f : A -> M B) (e : line_error) x : forall l,
  In x l ->
  (forall h, exists es h', f x h = (Raise es, h') /\ In e es) ->
  forall h, exists es h', collect f l h = (Raise es, h') /\ In e es.
Proof.
  intros l Hin Hx. induction l as [| y l IH]; [destruct Hin |].
  intros h. simpl. destruct Hin as [-> | Hin].
  - destruct (Hx h) as (es1 & h1 & -> & He).
    destruct (collect f l h1) as [[bs | es2] h2]; eexists _, _; split; eauto.
    apply in_or_app. now left.
  - destruct (f y h) as [[b | es1] h1];
      destruct (IH Hin h1) as (es2 & h2 & -> & He); eexists _, _; split; eauto.
    apply in_or_app. now right.
Qed.

(** Every line a collection raises was raised by one of its elements. *)
Lemma collect_raise_elim {A B : Type} (f : A -> M B) : forall l h es h',
  collect f l h = (Raise es, h') ->
  forall e, In e es ->
  exists x hi es' hi', In x l /\ f x hi = (Raise es', hi') /\ In e es'.
Proof.
  induction l as [| y l IH]; intros h es h' E e He; simpl in E; [discriminate |].
  destruct (f y h) as [[b | es1] h1] eqn:E1;
    destruct (collect f l h1) as [[bs | es2] h2] eqn:E2;
    try discriminate; injection E as <- <-.
  - destruct (IH _ _ _ E2 _ He) as (x & hi & es' & hi' & ? & ? & ?).
    exists x, hi, es', hi'. auto using in_cons.
  - exists y, h, es1, h1. auto using in_eq.
  - apply in_app_or in He. destruct He as [He | He].
    + exists y, h, es1, h1. auto using in_eq.
    + destruct (IH _ _ _ E2 _ He) as (x & hi & es' & hi' & ? & ? & ?).
      exists x, hi, es', hi'. auto using in_cons.
Qed.

(** Elements that each succeed from every heap of a stable kind make the
    collection succeed. *)
Lemma collect_ok_intro {A B : Type} (f : A -> M B) (I : heap -> Prop) : forall l,
  (forall x, In x l -> forall h, I h -> exists b h', f x h = (Ok b, h') /\ I h') ->
  forall h, I h -> exists bs h', collect f l h = (Ok bs, h') /\ I h'.
Proof.
  induction l as [| y l IH]; intros Hf h Hh; simpl.
  - now exists [], h.
  - destruct (Hf y (in_eq _ _) h Hh) as (b & h1 & -> & H1).
    destruct (IH (fun x Hx => Hf x (in_cons _ _ _ Hx)) h1 H1) as (bs & h2 & -> & H2).
    now exists (b :: bs), h2.
Qed.

Lemma validate_model_ok_intro cls fs kw (base : heap) :
  (forall f, In f fs -> forall h, base `prefix_of` h ->
     exists b h', validate_field lax f kw h = (Ok b, h')) ->
  forall h, base `prefix_of` h ->
    exists v h', validate_model lax (Model cls fs) kw h = (Ok v, h').
Proof.
  intros Hf h Hh. rewrite validate_model_eq. unfold mbind, M_bind.
  destruct (collect_ok_intro (fun f => validate_field lax f kw)
              (fun h => base `prefix_of` h) fs) with (h := h)
    as (bs & h1 & -> & _); [| exact Hh | unfold alloc; eauto].
  intros f Hin h0 H0. destruct (Hf f Hin h0 H0) as (b & h' & E).
  exists b, h'. split; [exact E |].
  etransitivity; [exact H0 |]. apply extends_prefix.
  exact (proj1 (validate_field_tidy _ _ _ _ _ E)).
Qed.

Lemma validate_model_raise_intro cls fs kw f e :
  In f fs ->
  (forall h, exists es h', validate_field lax f kw h = (Raise es, h') /\ In e es) ->
  forall h, exists es h', validate_model lax (Model cls fs) kw h = (Raise es, h') /\ In e es.
Proof.
  intros Hin Hf h. rewrite validate_model_eq. unfold mbind, M_bind.
  destruct (collect_raise_intro (fun f => validate_field lax f kw) e f fs Hin Hf h)
    as (es & h' & -> & He).
  now exists es, h'.
Qed.

Lemma existsb_eqb_In s l : existsb (String.eqb s) l = true <-> In s l.
Proof.
  rewrite existsb_exists. split.
  - intros (x & Hx & E). apply String.eqb_eq in E. now subst.
  - intros H. exists s. split; [exact H | apply String.eqb_refl].
Qed.

Lemma getpath_cons h v n x p y :
  getattr h v n = Some x -> getpath h x p = Some y -> getpath h v (n :: p) = Some y.
Proof. intros E1 E2. simpl. now rewrite E1. Qed.

(** ** Small steps used by the claims *)

Lemma validate_literal_bad allowed s :
  ~ In s allowed -> validate_literal allowed (RStr s) = raise [line (literal_error allowed)].
Proof.
  intros Hs. unfold validate_literal.
  destruct (existsb (String.eqb s) allowed) eqn:E; [| reflexivity].
  now apply existsb_eqb_In in E.
Qed.

Lemma validate_literal_good allowed s :
  In s allowed -> validate_literal allowed (RStr s) = mret (VStr s).
Proof.
  intros Hs. unfold validate_literal.
  now rewrite (proj2 (existsb_eqb_In s allowed) Hs).
Qed.

Lemma getattr_new (h : heap) cls attrs n :
  getattr (h ++ [OInstance cls attrs]) (VRef (length h)) n = dict_get n attrs.
Proof. simpl. now rewrite list_lookup_middle. Qed.

(** ** Copying the class-level defaults *)

Lemma deepcopy_scalar fuel v h :
  hashable v = true -> deepcopy fuel v h = (Some v, h).
Proof. destruct v; try discriminate; destruct fuel; reflexivity. Qed.

Lemma copy_each_scalars fuel vs h :
  forallb hashable vs = true -> copy_each (deepcopy fuel) vs h = (Some vs, h).
Proof.
  induction vs as [| v vs IH]; cbn [copy_each forallb]; [reflexivity |].
  intros Hv. apply andb_prop in Hv as [Hv Hvs].
  now rewrite (deepcopy_scalar _ _ _ Hv), (IH Hvs).
Qed.

Lemma deepcopy_scalar_list fuel a items h :
  h !! a = Some (OList items) -> forallb hashable items = true ->
  deepcopy (S fuel) (VRef a) h = (Some (VRef (length h)), h ++ [OList items]).
Proof. intros Ha Hi. cbn [deepcopy]. now rewrite Ha, copy_each_scalars. Qed.

Lemma deepcopy_instance fuel a cls attrs h :
  h !! a = Some (OInstance cls attrs) ->
  deepcopy (S fuel) (VRef a) h =
  match copy_each (deepcopy fuel) (map snd attrs) h with
  | (Some vs', h') => (Some (VRef (length h')), h' ++ [OInstance cls (zip (map fst attrs) vs')])
  | (None, h') => (None, h')
  end.
Proof. intros Ha. cbn [deepcopy]. now rewrite Ha. Qed.

(** In any heap that still starts with the class-level objects, the default
    of [ServerSettings.cors] is a copy: three new lists and a new instance. *)
Lemma deepcopy_cors h :
  module_heap `prefix_of` h ->
  deepcopy (length h) (VRef 6) h =
  (Some (VRef (3 + length h)), h ++ cors_default_copy (length h)).
Proof.
  intros Hp.
  pose proof (prefix_lookup_Some module_heap h 3%nat _ eq_refl Hp) as H3.
  pose proof (prefix_lookup_Some module_heap h 4%nat _ eq_refl Hp) as H4.
  pose proof (prefix_lookup_Some module_heap h 5%nat _ eq_refl Hp) as H5.
  pose proof (prefix_lookup_Some module_heap h 6%nat _ eq_refl Hp) as H6.
  pose proof (prefix_length _ _ Hp) as Hlen. change (length module_heap) with 7%nat in Hlen.
  assert (El : exists n, length h = S (S n)) by (exists (length h - 2)%nat; lia).
  destruct El as [n El]. rewrite El at 1.
  rewrite (deepcopy_instance _ _ _ _ _ H6). cbn [map snd copy_each].
  rewrite !deepcopy_scalar by reflexivity.
  rewrite (deepcopy_scalar_list _ _ _ _ H3 eq_refl).
  rewrite deepcopy_scalar by reflexivity.
  rewrite (deepcopy_scalar_list n 4 [VStr "GET"])
    by first [reflexivity | rewrite lookup_app_l by lia; exact H4].
  rewrite (deepcopy_scalar_list n 5 [])
    by first [reflexivity
             | rewrite !lookup_app_l by (rewrite ?length_app; simpl; lia); exact H5].
  cbn [zip zip_with map fst].
  rewrite !length_app. cbn [length]. rewrite <- !app_assoc. cbn [app].
  unfold cors_default_copy.
  replace (length h + 1 + 1 + 1)%nat with (3 + length h)%nat by lia.
  replace (length h + 1 + 1)%nat with (2 + length h)%nat by lia.
  replace (length h + 1)%nat with (1 + length h)%nat by lia.
  reflexivity.
Qed.

Lemma default_cors_copied h :
  module_heap `prefix_of` h ->
  default_value (VRef 6) h = (Ok (VRef (3 + length h)), h ++ cors_default_copy (length h)).
Proof. intros Hp. unfold default_value. cbn [hashable]. now rewrite deepcopy_cors. Qed.

Arguments deepcopy : simpl never.

(** From [E : validate_model lax m kw h = (Ok v, h')], the attribute [n] of the
    result: its value [x], read in the final heap ([Hg]), the heap [hi] the
    field started from ([X : extends h hi]), the heap it ended in, a prefix of
    the final one ([Hp]), and the field computation that produced it ([Hx]). *)
Ltac attr E n x Hg X Hp Hx :=
  let a := fresh "a" in let attrs := fresh "attrs" in
  let hi := fresh "hi" in let hi' := fresh "hi'" in
  let Hv := fresh "Hv" in
  destruct (validate_model_attr _ _ _ _ _ _ n _ _ E eq_refl)
    as (a & attrs & x & hi & hi' & Hv & _ & _ & _ & _ & Hg & X & _ & Hp & _ & _ & Hx).

(** The same for a mapping given in full: the keyword lookup is evaluated. *)
Ltac attr_of E n x Hg X Hp Hx :=
  attr E n x Hg X Hp Hx;
  lazymatch type of Hx with
  | field_input _ _ _ ?o _ = _ =>
      let o' := eval cbv in o in change o with o' in Hx
  end;
  cbn [field_input] in Hx.

(** A nested model field that validated was given a mapping. *)
Ltac into_model Hx :=
  let kw := fresh "kw" in
  cbn [field_input] in Hx;
  apply validate_TModel_ok in Hx as (kw & [= <-] & Hx).

Lemma example_merge local_kw sagemaker_kw :
  merge_layers [example_base local_kw sagemaker_kw; example_overlay] =
  RDict (example_merged local_kw sagemaker_kw).
Proof. reflexivity. Qed.

(** Every field of [Settings] validates on the example, once the two elided
    groups do. *)
Lemma example_fields_validate local_kw sagemaker_kw :
  (forall h, module_heap `prefix_of` h ->
     exists v h', validate_model lax LocalSettings local_kw h = (Ok v, h')) ->
  (forall h, module_heap `prefix_of` h ->
     exists v h', validate_model lax SagemakerSettings sagemaker_kw h = (Ok v, h')) ->
  forall f, In f (fields_of Settings) -> forall h, module_heap `prefix_of` h ->
    exists b h', validate_field lax f (example_merged local_kw sagemaker_kw) h = (Ok b, h').
Proof.
  intros Hl Hs f Hf h Hh. simpl in Hf.
  repeat (destruct Hf as [<- | Hf]); try contradiction;
    rewrite validate_field_eq; cbn [dict_get example_merged String.eqb Ascii.eqb Bool.eqb].
  - cbn. unfold mbind, M_bind, mret, M_ret, nested, alloc, raise. cbn.
    rewrite deepcopy_cors by exact Hh. cbn. eauto.
  - cbn. eauto.
  - cbn. eauto.
  - cbn. eauto.
  - unfold mbind, M_bind, nested. cbn [field_input validate].
    destruct (Hl h Hh) as (v & h' & ->). eauto.
  - unfold mbind, M_bind, nested. cbn [field_input validate].
    destruct (Hs h Hh) as (v & h' & ->). eauto.
  - cbn. eauto.
  - cbn. eauto.
  - cbn. eauto.
  - cbn. eauto.
  - cbn. eauto.
Qed.

Lemma validate_model_of t m kw :
  model_of t = Some m -> validate lax t (RDict kw) = validate_model lax m kw.
Proof.
  induction t; simpl; try discriminate.
  - exact IHt.
  - now intros [= ->].
Qed.

Lemma absent_in_raises m kw p :
  absent_in m kw p ->
  forall h, exists es h',
    validate_model lax m kw h = (Raise es, h') /\
    In (LineError (map LKey p) missing) es.
Proof.
  induction 1 as [cls fs kw n t Hin Hk | cls fs kw n t d m kw' p Hin Hm Hk _ IH].
  - apply validate_model_raise_intro with (f := Field n t Required); [exact Hin |].
    intros h. rewrite validate_field_eq, Hk. cbn.
    eexists _, _. split; [reflexivity |]. now left.
  - apply validate_model_raise_intro with (f := Field n t d); [exact Hin |].
    intros h. rewrite validate_field_eq, Hk. cbn [field_input].
    rewrite (validate_model_of _ _ _ Hm). unfold mbind, M_bind, nested.
    destruct (IH h) as (es & h' & -> & He).
    eexists _, _. split; [reflexivity |].
    apply (in_map (at_loc (LKey n))) in He. exact He.
Qed.

Lemma getattr_cors_copy (h : heap) n :
  getattr (h ++ cors_default_copy (length h)) (VRef (3 + length h)) n =
  dict_get n [("enabled", VBool false); ("allow_credentials", VBool false);
              ("allow_origins", VRef (length h)); ("allow_origin_regex", VNone);
              ("allow_methods", VRef (1 + length h)); ("allow_headers", VRef (2 + length h))].
Proof.
  unfold getattr. rewrite lookup_app_r by lia.
  replace (3 + length h - length h)%nat with 3%nat by lia. reflexivity.
Qed.

(** The lines a field raises are located below its name. *)
Lemma validate_field_raise_loc f kw h es h' e :
  validate_field lax f kw h = (Raise es, h') -> In e es ->
  exists l, err_loc e = LKey (fname_of f) :: l.
Proof.
  destruct f as [n t d]. intros E He.
  apply validate_field_raise in E as (es' & -> & _).
  apply in_map_iff in He as (e' & <- & _). now exists (err_loc e').
Qed.

(** A store group without [database] raises nothing at [database]. *)
Lemma store_database_defaulted store m raw kw h es h' e :
  In m [DocumentstoreSettings; IndexstoreSettings] ->
  dict_get store raw = Some (RDict kw) ->
  dict_get "database" kw = None ->
  validate_field lax (Field store (TModel m) Required) raw h = (Raise es, h') ->
  In e es -> err_loc e <> [LKey store; LKey "database"].
Proof.
  intros Hm Hs Hk E He.
  apply validate_field_raise in E as (es' & -> & E).
  apply in_map_iff in He as (e' & <- & He).
  rewrite Hs in E. cbn [field_input validate] in E.
  assert (exists cls fs, m = Model cls fs /\
            forall f, In f fs -> fname_of f = "database" ->
                      f = Field "database" (TLiteral store_databases) (Default (VStr "disk")))
    as (cls & fs & -> & Hf).
  { destruct Hm as [<- | [<- | []]]; eexists _, _; (split; [reflexivity |]);
      intros f Hin Hn; simpl in Hin;
      repeat (destruct Hin as [<- | Hin]; [first [reflexivity | discriminate Hn] |]);
      contradiction. }
  apply validate_model_raise in E.
  destruct (collect_raise_elim _ _ _ _ _ E _ He) as (f & hi & es'' & hi' & Hin & Ef & He').
  destruct (validate_field_raise_loc _ _ _ _ _ _ Ef He') as (l & Hl).
  simpl. rewrite Hl. intros [= Hn _].
  rewrite (Hf f Hin Hn) in Ef.
  rewrite validate_field_eq, Hk in Ef. discriminate Ef.
Qed.

(** ** Object graphs *)

Lemma dict_get_In {A : Type} n (d : list (string * A)) x :
  dict_get n d = Some x -> In x (map snd d).
Proof.
  induction d as [| [k y] d IH]; simpl; [discriminate |].
  destruct (String.eqb k n); [intros [= ->]; now left | right; auto].
Qed.

Lemma getattr_reach h v n x b :
  getattr h v n = Some x -> reach h x b -> reach h v b.
Proof.
  destruct v; simpl; try discriminate.
  destruct (h !! a) as [[items | cls attrs] |] eqn:Ea; try discriminate.
  intros Hd Hr. eapply reach_step; [exact Ea | | exact Hr].
  simpl. eapply dict_get_In, Hd.
Qed.

(** What a path reads is part of the object graph. *)
Lemma getpath_reach h : forall p v a,
  getpath h v p = Some (VRef a) -> reach h v a.
Proof.
  induction p as [| n p IH]; intros v a; simpl.
  - intros [= ->]. constructor.
  - destruct (getattr h v n) as [x |] eqn:Ex; [| discriminate].
    intros Hp. eapply getattr_reach; [exact Ex | now apply IH].
Qed.

(** Assigning to an object outside the graph of [v] changes no read from [v]. *)
Lemma getpath_insert_other (h : heap) a o : forall p v,
  (forall b, reach h v b -> b <> a) ->
  getpath (<[a := o]> h) v p = getpath h v p.
Proof.
  induction p as [| n p IH]; intros v Hv; [reflexivity |].
  cbn [getpath].
  assert (Hg : getattr (<[a := o]> h) v n = getattr h v n).
  { destruct v; try reflexivity. simpl.
    rewrite list_lookup_insert_ne; [reflexivity |].
    intros <-. exact (Hv _ (reach_here _ _) eq_refl). }
  rewrite Hg. destruct (getattr h v n) as [x |] eqn:Ex; [| reflexivity].
  apply IH. intros b Hb. apply Hv. eapply getattr_reach; eassumption.
Qed.

(** ** Two constructions in a row *)

(** The objects of each instance lie between the heap its construction
    started from and the heap it ended in. *)
Lemma two_instances raw1 raw2 h v1 h1 v2 h2 :
  unsafe_typed_settings lax raw1 h = (Ok v1, h1) ->
  unsafe_typed_settings lax raw2 h1 = (Ok v2, h2) ->
  (forall a, reach h2 v1 a -> (length h <= a < length h1)%nat) /\
  (forall a, reach h2 v2 a -> (length h1 <= a < length h2)%nat).
Proof.
  intros E1 E2.
  destruct (validate_model_tidy _ _ _ _ _ E1) as [X1 Y1].
  destruct (validate_model_tidy _ _ _ _ _ E2) as [X2 Y2].
  split; intros a Hr.
  - eapply reach_in_extension;
      [exact X1 | apply extends_prefix, X2 | exact (Y1 _ eq_refl) | exact Hr].
  - eapply reach_in_extension; [exact X2 | reflexivity | exact (Y2 _ eq_refl) | exact Hr].
Qed.

(** Without [server.basic_auth] in the mapping, the instance holds the object
    the factory built during this construction. *)
Lemma basic_auth_default raw h v h' :
  unsafe_typed_settings lax raw h = (Ok v, h') ->
  raw_path (RDict raw) ["server"; "basic_auth"] = None ->
  exists a,
    getpath h' v ["server"; "basic_auth"] = Some (VRef a) /\
    (length h <= a < length h')%nat /\
    h' !! a = Some (OInstance "BasicAuthSettings"
                      [("enabled", VBool false); ("secret", VStr "secret-key")]).
Proof.
  intros E Hraw.
  attr E "server" xs Hgs X Hps Hxs.
  cbn [raw_path] in Hraw.
  destruct (dict_get "server" raw) as [rs |] eqn:Es; [| discriminate Hxs].
  cbn [field_input] in Hxs. apply validate_TModel_ok in Hxs as (kws & -> & Hxs).
  attr Hxs "basic_auth" xb Hgb X' Hpb Hxb.
  destruct (dict_get "basic_auth" kws); [discriminate Hraw |].
  cbn in Hxb. injection Hxb as <- <-.
  pose proof (extends_length _ _ X) as L1. pose proof (extends_length _ _ X') as L2.
  pose proof (prefix_length _ _ Hps) as L3. pose proof (prefix_length _ _ Hpb) as L4.
  rewrite length_app in L4. cbn [length] in L4.
  eexists. split; [| split].
  - eapply getpath_cons; [exact Hgs |]. eapply getpath_prefix; [exact Hps |].
    eapply getpath_cons; [exact Hgb | reflexivity].
  - lia.
  - eapply prefix_lookup_Some; [| exact Hps]. eapply prefix_lookup_Some; [| exact Hpb].
    now apply list_lookup_middle.
Qed.

(** Without [server.cors] in the mapping, the instance holds a copy of the
    class-level default made during this construction, with lists of its own. *)
Lemma cors_default raw h v h' :
  module_heap `prefix_of` h ->
  unsafe_typed_settings lax raw h = (Ok v, h') ->
  raw_path (RDict raw) ["server"; "cors"] = None ->
  exists c lo lm lh,
    getpath h' v ["server"; "cors"] = Some (VRef c) /\
    h' !! c = Some (OInstance "CorsSettings"
                      [("enabled", VBool false); ("allow_credentials", VBool false);
                       ("allow_origins", VRef lo); ("allow_origin_regex", VNone);
                       ("allow_methods", VRef lm); ("allow_headers", VRef lh)]) /\
    h' !! lo = Some (OList []) /\
    h' !! lm = Some (OList [VStr "GET"]) /\
    h' !! lh = Some (OList []).
Proof.
  intros Hh E Hraw.
  attr E "server" xs Hgs X Hps Hxs.
  cbn [raw_path] in Hraw.
  destruct (dict_get "server" raw) as [rs |] eqn:Es; [| discriminate Hxs].
  cbn [field_input] in Hxs. apply validate_TModel_ok in Hxs as (kws & -> & Hxs).
  attr Hxs "cors" xc Hgc X' Hpc Hxc.
  destruct (dict_get "cors" kws); [discriminate Hraw |].
  cbn [field_input absent_field] in Hxc.
  match type of Hxc with default_value _ ?hj = _ => set (hc := hj) in * end.
  rewrite default_cors_copied in Hxc
    by (etransitivity; [exact Hh |]; etransitivity; apply extends_prefix; eassumption).
  injection Hxc as <- Hc.
  assert (P : forall k o, cors_default_copy (length hc) !! k = Some o ->
                          h' !! (k + length hc)%nat = Some o).
  { intros k o Hk. eapply prefix_lookup_Some; [| exact Hps].
    eapply prefix_lookup_Some; [| exact Hpc]. rewrite <- Hc.
    rewrite lookup_app_r by lia. now replace (k + length hc - length hc)%nat with k by lia. }
  exists (3 + length hc)%nat, (0 + length hc)%nat, (1 + length hc)%nat, (2 + length hc)%nat.
  split; [| repeat split; apply P; reflexivity].
  eapply getpath_cons; [exact Hgs |]. eapply getpath_prefix; [exact Hps |].
  eapply getpath_cons; [exact Hgc | reflexivity].
Qed.

(** ** The claims *)

(** C1.  [llm.mode] is a literal field over [local], [openai], [sagemaker],
    [mock].  For a mapping whose [llm] group gives [mode] as a string [s]:
    when [s] is none of the four, constructing [Settings] raises, and the
    error has a line located at [llm.mode] of type [literal_error] carrying
    the allowed set; when [s] is one of the four and each of the other ten
    fields of [Settings] validates on the mapping, the construction returns an
    instance whose [llm.mode] is [s], whatever the other groups hold. *)
Theorem llm_mode_literal_enforced raw kw_llm s :
  dict_get "llm" raw = Some (RDict kw_llm) ->
  dict_get "mode" kw_llm = Some (RStr s) ->
  (~ In s llm_modes ->
     forall h, exists es h',
       unsafe_typed_settings lax raw h = (Raise es, h') /\
       In (LineError [LKey "llm"; LKey "mode"] (literal_error llm_modes)) es)
  /\
  (In s llm_modes ->
     (forall f, In f (fields_of Settings) -> fname_of f <> "llm" ->
        forall h, module_heap `prefix_of` h ->
          exists b h', validate_field lax f raw h = (Ok b, h')) ->
     forall h, module_heap `prefix_of` h ->
       exists v h',
         unsafe_typed_settings lax raw h = (Ok v, h') /\
         getpath h' v ["llm"; "mode"] = Some (VStr s)).
Proof.
  intros H1 H2. split.
  - intros Hs. unfold unsafe_typed_settings, Settings, Settings_class.
    apply validate_model_raise_intro with (f := Field "llm" (TModel LLMSettings) Required).
    { simpl. tauto. }
    intros h. rewrite validate_field_eq, H1.
    cbn. rewrite H2. cbn. rewrite validate_literal_bad by exact Hs. cbn.
    eexists _, _. split; [reflexivity |]. now left.
  - intros Hs Hothers h Hh.
    assert (Hllm : forall h0,
      validate_field lax (Field "llm" (TModel LLMSettings) Required) raw h0 =
      (Ok ("llm", VRef (length h0)), h0 ++ [OInstance "LLMSettings" [("mode", VStr s)]])).
    { intros h0. rewrite validate_field_eq, H1. cbn. rewrite H2. cbn.
      rewrite validate_literal_good by exact Hs. reflexivity. }
    destruct (validate_model_ok_intro "Settings" (fields_of Settings) raw module_heap)
      with (h := h) as (v & h' & E); [| exact Hh |].
    { intros f Hf h0 H0. destruct (string_dec (fname_of f) "llm") as [En | En].
      - simpl in Hf.
        repeat (destruct Hf as [<- | Hf]; [try discriminate En |]); try contradiction.
        rewrite Hllm. eauto.
      - now apply Hothers. }
    exists v, h'. split; [exact E |].
    attr E "llm" x Hg X Hp Hx.
    apply validate_field_of_input in Hx. rewrite Hllm in Hx.
    injection Hx as <- <-.
    eapply getpath_cons; [exact Hg |].
    eapply getpath_prefix; [exact Hp |].
    cbn [getpath]. now rewrite getattr_new.
Qed.

(** C3.  The end-to-end example: the base layer overlaid with the profile
    [{server: {port: 9000}, documentstore: {database: "redis", redis: {host:
    "myredis", port: 6380}}}] merges to [example_merged], and binding that
    mapping returns a [Settings] with [server.port == 9000], [server.env_name
    == "prod"], [documentstore.database == "redis"], [documentstore.redis.host
    == "myredis"], [documentstore.redis.port == 6380] and
    [documentstore.namespace] at its declared default
    ["private_gpt_documents"], whatever valid contents the two elided groups
    [local] and [sagemaker] have. *)
Theorem end_to_end_example_binds local_kw sagemaker_kw :
  (forall h, module_heap `prefix_of` h ->
     exists v h', validate_model lax LocalSettings local_kw h = (Ok v, h')) ->
  (forall h, module_heap `prefix_of` h ->
     exists v h', validate_model lax SagemakerSettings sagemaker_kw h = (Ok v, h')) ->
  merge_layers [example_base local_kw sagemaker_kw; example_overlay] =
    RDict (example_merged local_kw sagemaker_kw) /\
  forall h, module_heap `prefix_of` h ->
    exists v h',
      unsafe_typed_settings lax (example_merged local_kw sagemaker_kw) h = (Ok v, h') /\
      getpath h' v ["server"; "port"] = Some (VInt 9000) /\
      getpath h' v ["server"; "env_name"] = Some (VStr "prod") /\
      getpath h' v ["documentstore"; "database"] = Some (VStr "redis") /\
      getpath h' v ["documentstore"; "redis"; "host"] = Some (VStr "myredis") /\
      getpath h' v ["documentstore"; "redis"; "port"] = Some (VInt 6380) /\
      getpath h' v ["documentstore"; "namespace"] = Some (VStr "private_gpt_documents").
Proof.
  intros Hl Hs. split; [reflexivity |]. intros h Hh.
  destruct (validate_model_ok_intro "Settings" (fields_of Settings)
              (example_merged local_kw sagemaker_kw) module_heap
              (example_fields_validate local_kw sagemaker_kw Hl Hs) h Hh) as (v & h' & E).
  exists v, h'. split; [exact E |].
  repeat split.
  - attr_of E "server" xs Hgs X Hps Hxs. into_model Hxs.
    attr_of Hxs "port" xp Hgp X' Hpp Hxp. injection Hxp as <- _.
    eapply getpath_cons; [exact Hgs |]. eapply getpath_prefix; [exact Hps |].
    eapply getpath_cons; [exact Hgp | reflexivity].
  - attr_of E "server" xs Hgs X Hps Hxs. into_model Hxs.
    attr_of Hxs "env_name" xp Hgp X' Hpp Hxp. injection Hxp as <- _.
    eapply getpath_cons; [exact Hgs |]. eapply getpath_prefix; [exact Hps |].
    eapply getpath_cons; [exact Hgp | reflexivity].
  - attr_of E "documentstore" xs Hgs X Hps Hxs. into_model Hxs.
    attr_of Hxs "database" xp Hgp X' Hpp Hxp. injection Hxp as <- _.
    eapply getpath_cons; [exact Hgs |]. eapply getpath_prefix; [exact Hps |].
    eapply getpath_cons; [exact Hgp | reflexivity].
  - attr_of E "documentstore" xs Hgs X Hps Hxs. into_model Hxs.
    attr_of Hxs "redis" xr Hgr X' Hpr Hxr. into_model Hxr.
    attr_of Hxr "host" xp Hgp X'' Hpp Hxp. injection Hxp as <- _.
    eapply getpath_cons; [exact Hgs |]. eapply getpath_prefix; [exact Hps |].
    eapply getpath_cons; [exact Hgr |]. eapply getpath_prefix; [exact Hpr |].
    eapply getpath_cons; [exact Hgp | reflexivity].
  - attr_of E "documentstore" xs Hgs X Hps Hxs. into_model Hxs.
    attr_of Hxs "redis" xr Hgr X' Hpr Hxr. into_model Hxr.
    attr_of Hxr "port" xp Hgp X'' Hpp Hxp. injection Hxp as <- _.
    eapply getpath_cons; [exact Hgs |]. eapply getpath_prefix; [exact Hps |].
    eapply getpath_cons; [exact Hgr |]. eapply getpath_prefix; [exact Hpr |].
    eapply getpath_cons; [exact Hgp | reflexivity].
  - attr_of E "documentstore" xs Hgs X Hps Hxs. into_model Hxs.
    attr_of Hxs "namespace" xp Hgp X' Hpp Hxp. injection Hxp as <- _.
    eapply getpath_cons; [exact Hgs |]. eapply getpath_prefix; [exact Hps |].
    eapply getpath_cons; [exact Hgp | reflexivity].
Qed.

(** C2.  A required field that is absent aborts the construction: for every
    mapping in which some field that declares no default ([server.env_name],
    [data.local_data_folder], [openai.api_key], ...) is absent, constructing
    [Settings] raises, the error has a line of type [missing] located at that
    field's path, and no [Settings] instance is returned: the outcome is the
    error alone, and the heap the call started from is left as it was. *)
Theorem required_field_absent_aborts raw p :
  absent_in Settings raw p ->
  forall h, exists es h',
    unsafe_typed_settings lax raw h = (Raise es, h') /\
    In (LineError (map LKey p) missing) es /\
    extends h h'.
Proof.
  intros Ha h.
  destruct (absent_in_raises _ _ _ Ha h) as (es & h' & E & He).
  exists es, h'. repeat split; auto.
  exact (proj1 (validate_model_tidy _ _ _ _ _ E)).
Qed.


(** C9, as amended.  The [database] discriminators of the document store and
    of the index store are declared with the default ["disk"]: for a mapping
    that gives the [documentstore] (or [indexstore]) group without a
    [database] key, no line of a raised error is located at that group's
    [database], and whenever the mapping binds, the bound [database] is
    ["disk"]. *)
Theorem store_database_defaults_to_disk raw store kw :
  In store ["documentstore"; "indexstore"] ->
  dict_get store raw = Some (RDict kw) ->
  dict_get "database" kw = None ->
  (forall h es h', unsafe_typed_settings lax raw h = (Raise es, h') ->
     forall e, In e es -> err_loc e <> [LKey store; LKey "database"]) /\
  (forall h v h', unsafe_typed_settings lax raw h = (Ok v, h') ->
     getpath h' v [store; "database"] = Some (VStr "disk")).
Proof.
  intros Hstore Hs Hk. split.
  - intros h es h' E e He Hloc.
    apply validate_model_raise in E.
    destruct (collect_raise_elim _ _ _ _ _ E _ He) as (f & hi & es' & hi' & Hin & Ef & He').
    destruct (validate_field_raise_loc _ _ _ _ _ _ Ef He') as (l & Hl).
    rewrite Hl in Hloc. injection Hloc as Hn Hl'.
    assert (exists m, In m [DocumentstoreSettings; IndexstoreSettings] /\
                      f = Field store (TModel m) Required) as (m & Hm & Hf).
    { simpl in Hin, Hstore.
      destruct Hstore as [<- | [<- | []]];
        repeat (destruct Hin as [<- | Hin]; [try discriminate Hn |]);
        try contradiction; eexists; (split; [| reflexivity]); simpl; auto. }
    rewrite Hf in Ef.
    eapply store_database_defaulted; [exact Hm | exact Hs | exact Hk | exact Ef | exact He' |].
    rewrite Hl, Hn, Hl'. reflexivity.
  - intros h v h' E.
    destruct Hstore as [<- | [<- | []]].
    + attr E "documentstore" xs Hgs X Hps Hxs. rewrite Hs in Hxs. into_model Hxs.
      attr Hxs "database" xd Hgd X' Hpd Hxd. rewrite Hk in Hxd. injection Hxd as <- _.
      eapply getpath_cons; [exact Hgs |]. eapply getpath_prefix; [exact Hps |].
      eapply getpath_cons; [exact Hgd | reflexivity].
    + attr E "indexstore" xs Hgs X Hps Hxs. rewrite Hs in Hxs. into_model Hxs.
      attr Hxs "database" xd Hgd X' Hpd Hxd. rewrite Hk in Hxd. injection Hxd as <- _.
      eapply getpath_cons; [exact Hgs |]. eapply getpath_prefix; [exact Hps |].
      eapply getpath_cons; [exact Hgd | reflexivity].
Qed.

(** C10.  [CorsSettings.allow_origin_regex] is annotated [list[str]] and
    declared with [default=None]; for every [Settings] constructed from a
    mapping that does not give [server.cors.allow_origin_regex], the bound
    value is [None], not a list. *)
Theorem allow_origin_regex_defaults_to_None raw h v h' :
  module_heap `prefix_of` h ->
  unsafe_typed_settings lax raw h = (Ok v, h') ->
  raw_path (RDict raw) ["server"; "cors"; "allow_origin_regex"] = None ->
  find_field "allow_origin_regex" (fields_of CorsSettings) =
    Some (Field "allow_origin_regex" (TList TStr) (Default VNone)) /\
  getpath h' v ["server"; "cors"; "allow_origin_regex"] = Some VNone.
Proof.
  intros Hh E Hraw. split; [reflexivity |].
  attr E "server" xs Hgs X Hps Hxs.
  cbn [raw_path] in Hraw.
  destruct (dict_get "server" raw) as [rs |] eqn:Es; [| discriminate Hxs].
  cbn [field_input] in Hxs. apply validate_TModel_ok in Hxs as (kws & -> & Hxs).
  attr Hxs "cors" xc Hgc X' Hpc Hxc.
  eapply getpath_cons; [exact Hgs |]. eapply getpath_prefix; [exact Hps |].
  eapply getpath_cons; [exact Hgc |]. eapply getpath_prefix; [exact Hpc |].
  destruct (dict_get "cors" kws) as [rc |] eqn:Ec.
  - cbn [field_input] in Hxc. apply validate_TModel_ok in Hxc as (kwc & -> & Hxc).
    attr Hxc "allow_origin_regex" xr Hgr X'' Hpr Hxr.
    destruct (dict_get "allow_origin_regex" kwc); [discriminate Hraw |].
    injection Hxr as <- _.
    eapply getpath_cons; [exact Hgr | reflexivity].
  - cbn [field_input absent_field] in Hxc.
    rewrite default_cors_copied in Hxc.
    + injection Hxc as <- <-. cbn [getpath]. now rewrite getattr_cors_copy.
    + etransitivity; [exact Hh |]. etransitivity; apply extends_prefix; eassumption.
Qed.

(** C4.  Two [Settings] constructed one after the other from mappings that
    give no [server.basic_auth]: each instance's [server.basic_auth] is the
    object its own construction obtained from the default factory, so the two
    are distinct objects, equal in content ([enabled == False], [secret ==
    "secret-key"]), and assigning to the one leaves the other, and the path
    that reads it, as they were. *)
Theorem basic_auth_default_is_fresh raw1 raw2 h v1 h1 v2 h2 :
  unsafe_typed_settings lax raw1 h = (Ok v1, h1) ->
  unsafe_typed_settings lax raw2 h1 = (Ok v2, h2) ->
  raw_path (RDict raw1) ["server"; "basic_auth"] = None ->
  raw_path (RDict raw2) ["server"; "basic_auth"] = None ->
  exists a1 a2,
    getpath h2 v1 ["server"; "basic_auth"] = Some (VRef a1) /\
    getpath h2 v2 ["server"; "basic_auth"] = Some (VRef a2) /\
    (length h <= a1 < length h1)%nat /\ (length h1 <= a2 < length h2)%nat /\
    a1 <> a2 /\
    h2 !! a1 = Some (OInstance "BasicAuthSettings"
                       [("enabled", VBool false); ("secret", VStr "secret-key")]) /\
    h2 !! a2 = Some (OInstance "BasicAuthSettings"
                       [("enabled", VBool false); ("secret", VStr "secret-key")]) /\
    (forall o, (<[a1 := o]> h2) !! a2 = h2 !! a2 /\
               getpath (<[a1 := o]> h2) v2 ["server"; "basic_auth"] = Some (VRef a2)) /\
    (forall o, (<[a2 := o]> h2) !! a1 = h2 !! a1 /\
               getpath (<[a2 := o]> h2) v1 ["server"; "basic_auth"] = Some (VRef a1)).
Proof.
  intros E1 E2 R1 R2.
  destruct (basic_auth_default _ _ _ _ E1 R1) as (a1 & G1 & B1 & L1).
  destruct (basic_auth_default _ _ _ _ E2 R2) as (a2 & G2 & B2 & L2).
  destruct (two_instances _ _ _ _ _ _ _ E1 E2) as [D1 D2].
  pose proof (extends_prefix _ _ (proj1 (validate_model_tidy _ _ _ _ _ E2))) as P2.
  pose proof (getpath_prefix _ _ P2 _ _ _ G1) as G1'.
  exists a1, a2. repeat split; try lia; auto.
  - eapply prefix_lookup_Some; [exact L1 | exact P2].
  - apply list_lookup_insert_ne. lia.
  - rewrite getpath_insert_other; [exact G2 |].
    intros b Hb. apply D2 in Hb. lia.
  - apply list_lookup_insert_ne. lia.
  - rewrite getpath_insert_other; [exact G1' |].
    intros b Hb. apply D1 in Hb. lia.
Qed.

(** C5.  Nested defaults are composed by value.  For two [Settings]
    constructed one after the other, every object in the graph of the first
    was allocated by the first construction and every object in the graph of
    the second by the second; none is a class-level default object.  So no
    path from the one and path from the other read the same object, and
    assigning to an object of the one changes nothing that can be read from
    the other.  In particular an instance built without [server.cors] holds a
    [CorsSettings] of its own, a copy of the single [CorsSettings(enabled=False)]
    of the class statement, with lists of its own for [allow_origins] (empty),
    [allow_methods] and [allow_headers]. *)
Theorem nested_defaults_are_per_instance raw1 raw2 h v1 h1 v2 h2 :
  module_heap `prefix_of` h ->
  unsafe_typed_settings lax raw1 h = (Ok v1, h1) ->
  unsafe_typed_settings lax raw2 h1 = (Ok v2, h2) ->
  (forall a, reach h2 v1 a ->
     (length module_heap <= a)%nat /\ (length h <= a < length h1)%nat) /\
  (forall a, reach h2 v2 a ->
     (length module_heap <= a)%nat /\ (length h1 <= a < length h2)%nat) /\
  (forall p1 p2 a b,
     getpath h2 v1 p1 = Some (VRef a) -> getpath h2 v2 p2 = Some (VRef b) -> a <> b) /\
  (forall a o p, reach h2 v1 a -> getpath (<[a := o]> h2) v2 p = getpath h2 v2 p) /\
  (forall a o p, reach h2 v2 a -> getpath (<[a := o]> h2) v1 p = getpath h2 v1 p) /\
  (forall v raw,
     (v = v1 /\ raw = raw1) \/ (v = v2 /\ raw = raw2) ->
     raw_path (RDict raw) ["server"; "cors"] = None ->
     exists c lo lm lh,
       getpath h2 v ["server"; "cors"] = Some (VRef c) /\
       h2 !! c = Some (OInstance "CorsSettings"
                         [("enabled", VBool false); ("allow_credentials", VBool false);
                          ("allow_origins", VRef lo); ("allow_origin_regex", VNone);
                          ("allow_methods", VRef lm); ("allow_headers", VRef lh)]) /\
       h2 !! lo = Some (OList []) /\
       h2 !! lm = Some (OList [VStr "GET"]) /\
       h2 !! lh = Some (OList [])).
Proof.
  intros Hh E1 E2.
  destruct (two_instances _ _ _ _ _ _ _ E1 E2) as [D1 D2].
  pose proof (proj1 (validate_model_tidy _ _ _ _ _ E1)) as X1.
  pose proof (proj1 (validate_model_tidy _ _ _ _ _ E2)) as X2.
  pose proof (prefix_length _ _ Hh) as Lh.
  pose proof (extends_length _ _ X1) as L1.
  split; [| split; [| split; [| split; [| split]]]].
  - intros a Hr. apply D1 in Hr. lia.
  - intros a Hr. apply D2 in Hr. lia.
  - intros p1 p2 a b G1 G2.
    apply getpath_reach, D1 in G1. apply getpath_reach, D2 in G2. lia.
  - intros a o p Hr. apply getpath_insert_other.
    intros b Hb. apply D1 in Hr. apply D2 in Hb. lia.
  - intros a o p Hr. apply getpath_insert_other.
    intros b Hb. apply D2 in Hr. apply D1 in Hb. lia.
  - intros v raw Hv Hraw.
    assert (exists h0 h0', module_heap `prefix_of` h0 /\ h0' `prefix_of` h2 /\
                           unsafe_typed_settings lax raw h0 = (Ok v, h0'))
      as (h0 & h0' & Hh0 & Hp0 & E0).
    { destruct Hv as [[-> ->] | [-> ->]].
      - exists h, h1. repeat split; auto. now apply extends_prefix.
      - exists h1, h2. repeat split; auto.
        etransitivity; [exact Hh | now apply extends_prefix]. }
    destruct (cors_default _ _ _ _ Hh0 E0 Hraw) as (c & lo & lm & lh & G & Lc & Llo & Llm & Llh).
    exists c, lo, lm, lh.
    pose proof (getpath_prefix _ _ Hp0 _ _ _ G) as G'.
    repeat split; [exact G' | | | |]; (eapply prefix_lookup_Some; [| exact Hp0]); assumption.
Qed.

(** C6.  Both access paths return the same instance.  [settings()] is the
    resolution of [Settings] through the container; in a process whose
    container has [Settings] bound to the module-level instance, every access
    of every sequence of accesses, by either path and in any order, obtains
    that one reference. *)
Theorem access_paths_return_the_same_instance (typed : value) (accesses : list access) :
  Forall (fun r => r = Some typed) (run_accesses accesses (global_injector typed)).
Proof.
  assert (H : forall inj,
            dict_get "Settings" (bound inj) = Some typed ->
            (dict_get "Settings" (resolved inj) = None \/
             dict_get "Settings" (resolved inj) = Some typed) ->
            Forall (fun r => r = Some typed) (run_accesses accesses inj)).
  { induction accesses as [| a l IH]; intros inj Hb Hr; simpl; [constructor |].
    assert (E : access_settings a inj = injector_get "Settings" inj) by now destruct a.
    rewrite E. unfold injector_get.
    destruct Hr as [Hr | Hr]; rewrite Hr.
    - rewrite Hb. constructor; [reflexivity |]. apply IH; simpl; auto.
    - constructor; [reflexivity |]. apply IH; auto. }
  apply H; simpl; auto.
Qed.

End Properties.

(** ** The claims on concrete mappings *)

(** The two groups the example elides validate, as given here. *)
Lemma example_local_validates (h : heap) :
  exists v h', validate_model exact_only LocalSettings example_local h = (Ok v, h').
Proof. eexists _, _. reflexivity. Qed.

Lemma example_sagemaker_validates (h : heap) :
  exists v h', validate_model exact_only SagemakerSettings example_sagemaker h = (Ok v, h').
Proof. eexists _, _. reflexivity. Qed.

Lemma example_settings_fields_validate f :
  In f (fields_of Settings) -> forall h, module_heap `prefix_of` h ->
  exists b h', validate_field exact_only f example_settings h = (Ok b, h').
Proof.
  apply example_fields_validate; intros h _;
    [apply example_local_validates | apply example_sagemaker_validates].
Qed.

(** C1 on the example: the mode [gpt4all] is refused with the line at
    [llm.mode], the mode [mock] is bound. *)
Lemma llm_mode_literal_enforced_witness :
  (exists es h',
     unsafe_typed_settings exact_only example_bad_mode module_heap = (Raise es, h') /\
     In (LineError [LKey "llm"; LKey "mode"] (literal_error llm_modes)) es) /\
  (exists v h',
     unsafe_typed_settings exact_only example_settings module_heap = (Ok v, h') /\
     getpath h' v ["llm"; "mode"] = Some (VStr "mock")).
Proof.
  split.
  - apply (proj1 (llm_mode_literal_enforced exact_only example_bad_mode
                    [("mode", RStr "gpt4all")] "gpt4all" eq_refl eq_refl)).
    simpl. intros [H | [H | [H | [H | []]]]]; discriminate H.
  - apply (proj2 (llm_mode_literal_enforced exact_only example_settings
                    [("mode", RStr "mock")] "mock" eq_refl eq_refl)).
    + simpl. tauto.
    + intros f Hf _. now apply example_settings_fields_validate.
    + reflexivity.
Defined.

(** C2 on the example without [server.env_name], without
    [data.local_data_folder] and without [openai.api_key]. *)
Lemma required_field_absent_aborts_witness :
  (exists es h',
     unsafe_typed_settings exact_only example_without_env_name module_heap = (Raise es, h') /\
     In (LineError [LKey "server"; LKey "env_name"] missing) es /\
     extends module_heap h') /\
  (exists es h',
     unsafe_typed_settings exact_only example_without_data_folder module_heap = (Raise es, h') /\
     In (LineError [LKey "data"; LKey "local_data_folder"] missing) es /\
     extends module_heap h') /\
  (exists es h',
     unsafe_typed_settings exact_only example_without_api_key module_heap = (Raise es, h') /\
     In (LineError [LKey "openai"; LKey "api_key"] missing) es /\
     extends module_heap h').
Proof.
  repeat split.
  - apply (required_field_absent_aborts exact_only example_without_env_name
             ["server"; "env_name"]).
    apply (absent_below _ _ _ "server" (TModel ServerSettings) Required ServerSettings
             [("port", RInt 9000)] ["env_name"]);
      [simpl; tauto | reflexivity | reflexivity |].
    apply (absent_here _ _ _ "env_name" TStr); [simpl; tauto | reflexivity].
  - apply (required_field_absent_aborts exact_only example_without_data_folder
             ["data"; "local_data_folder"]).
    apply (absent_below _ _ _ "data" (TModel DataSettings) Required DataSettings
             [] ["local_data_folder"]);
      [simpl; tauto | reflexivity | reflexivity |].
    apply (absent_here _ _ _ "local_data_folder" TStr); [simpl; tauto | reflexivity].
  - apply (required_field_absent_aborts exact_only example_without_api_key
             ["openai"; "api_key"]).
    apply (absent_below _ _ _ "openai" (TModel OpenAISettings) Required OpenAISettings
             [] ["api_key"]);
      [simpl; tauto | reflexivity | reflexivity |].
    apply (absent_here _ _ _ "api_key" TStr); [simpl; tauto | reflexivity].
Defined.

(** C3 with the elided groups filled in. *)
Lemma end_to_end_example_binds_witness :
  merge_layers [example_base example_local example_sagemaker; example_overlay] =
    RDict example_settings /\
  forall h, module_heap `prefix_of` h ->
    exists v h',
      unsafe_typed_settings exact_only example_settings h = (Ok v, h') /\
      getpath h' v ["server"; "port"] = Some (VInt 9000) /\
      getpath h' v ["server"; "env_name"] = Some (VStr "prod") /\
      getpath h' v ["documentstore"; "database"] = Some (VStr "redis") /\
      getpath h' v ["documentstore"; "redis"; "host"] = Some (VStr "myredis") /\
      getpath h' v ["documentstore"; "redis"; "port"] = Some (VInt 6380) /\
      getpath h' v ["documentstore"; "namespace"] = Some (VStr "private_gpt_documents").
Proof.
  apply (end_to_end_example_binds exact_only example_local example_sagemaker).
  - intros h _. apply example_local_validates.
  - intros h _. apply example_sagemaker_validates.
Defined.

(** C4 on two constructions from the example, right after the class
    statements: the two [basic_auth] objects are at addresses 11 and 32. *)
Lemma basic_auth_default_is_fresh_witness :
  exists a1 a2,
    getpath example_heap2 example_instance1 ["server"; "basic_auth"] = Some (VRef a1) /\
    getpath example_heap2 example_instance2 ["server"; "basic_auth"] = Some (VRef a2) /\
    (length module_heap <= a1 < length example_heap1)%nat /\
    (length example_heap1 <= a2 < length example_heap2)%nat /\
    a1 <> a2 /\
    example_heap2 !! a1 =
      Some (OInstance "BasicAuthSettings"
              [("enabled", VBool false); ("secret", VStr "secret-key")]) /\
    example_heap2 !! a2 =
      Some (OInstance "BasicAuthSettings"
              [("enabled", VBool false); ("secret", VStr "secret-key")]) /\
    (forall o, (<[a1 := o]> example_heap2) !! a2 = example_heap2 !! a2 /\
               getpath (<[a1 := o]> example_heap2) example_instance2
                 ["server"; "basic_auth"] = Some (VRef a2)) /\
    (forall o, (<[a2 := o]> example_heap2) !! a1 = example_heap2 !! a1 /\
               getpath (<[a2 := o]> example_heap2) example_instance1
                 ["server"; "basic_auth"] = Some (VRef a1)).
Proof.
  apply (basic_auth_default_is_fresh exact_only example_settings example_settings
           module_heap example_instance1 example_heap1 example_instance2 example_heap2).
  - vm_compute. reflexivity.
  - vm_compute. reflexivity.
  - reflexivity.
  - reflexivity.
Defined.

(** C5 on the same two constructions: no path from the first instance and
    path from the second read the same object, and each has a [cors] of its
    own. *)
Lemma nested_defaults_are_per_instance_witness :
  (forall p1 p2 a b,
     getpath example_heap2 example_instance1 p1 = Some (VRef a) ->
     getpath example_heap2 example_instance2 p2 = Some (VRef b) -> a <> b) /\
  (exists c1 c2,
     getpath example_heap2 example_instance1 ["server"; "cors"] = Some (VRef c1) /\
     getpath example_heap2 example_instance2 ["server"; "cors"] = Some (VRef c2) /\
     c1 <> c2 /\ c1 <> 6%nat /\ c2 <> 6%nat).
Proof.
  destruct (nested_defaults_are_per_instance exact_only example_settings example_settings
              module_heap example_instance1 example_heap1 example_instance2 example_heap2)
    as (D1 & D2 & Hdis & _ & _ & Hcors).
  - reflexivity.
  - vm_compute. reflexivity.
  - vm_compute. reflexivity.
  - split; [exact Hdis |].
    exists 10%nat, 31%nat. repeat split; try reflexivity; intros H; discriminate H.
Defined.



(** C9, the claim as stated fails: the example with a [documentstore] group
    and an [indexstore] group that give no [database] binds, and both
    discriminators are ["disk"]. *)
Lemma store_database_required_counterexample :
  dict_get "documentstore" example_stores_without_database =
    Some (RDict [("namespace", RStr "docs")]) /\
  dict_get "indexstore" example_stores_without_database = Some (RDict []) /\
  exists v h',
    unsafe_typed_settings exact_only example_stores_without_database module_heap =
      (Ok v, h') /\
    getpath h' v ["documentstore"; "database"] = Some (VStr "disk") /\
    getpath h' v ["indexstore"; "database"] = Some (VStr "disk").
Proof.
  split; [reflexivity |]. split; [reflexivity |].
  eexists _, _. split; [vm_compute; reflexivity |].
  split; reflexivity.
Qed.

(** C9 as amended, on that mapping. *)
Lemma store_database_defaults_to_disk_witness :
  (forall h es h',
     unsafe_typed_settings exact_only example_stores_without_database h = (Raise es, h') ->
     forall e, In e es -> err_loc e <> [LKey "indexstore"; LKey "database"]) /\
  (forall h v h',
     unsafe_typed_settings exact_only example_stores_without_database h = (Ok v, h') ->
     getpath h' v ["indexstore"; "database"] = Some (VStr "disk")).
Proof.
  apply (store_database_defaults_to_disk exact_only example_stores_without_database
           "indexstore" []).
  - simpl. tauto.
  - reflexivity.
  - reflexivity.
Defined.

(** C10 on the example, which gives no [server.cors] at all. *)
Lemma allow_origin_regex_defaults_to_None_witness :
  find_field "allow_origin_regex" (fields_of CorsSettings) =
    Some (Field "allow_origin_regex" (TList TStr) (Default VNone)) /\
  getpath example_heap1 example_instance1 ["server"; "cors"; "allow_origin_regex"] =
    Some VNone.
Proof.
  apply (allow_origin_regex_defaults_to_None exact_only example_settings module_heap
           example_instance1 example_heap1).
  - reflexivity.
  - vm_compute. reflexivity.
  - reflexivity.
Defined.

(** * The rest of the settings tree *)

Section Coverage.

Context (lax : conversions).

Ltac attr E n x Hg X Hp Hx :=
  let a := fresh "a" in let attrs := fresh "attrs" in
  let hi := fresh "hi" in let hi' := fresh "hi'" in
  let Hv := fresh "Hv" in
  destruct (validate_model_attr lax _ _ _ _ _ _ n _ _ E eq_refl)
    as (a & attrs & x & hi & hi' & Hv & _ & _ & _ & _ & Hg & X & _ & Hp & _ & _ & Hx).

Ltac attr_of E n x Hg X Hp Hx :=
  attr E n x Hg X Hp Hx;
  lazymatch type of Hx with
  | field_input _ _ _ ?o _ = _ =>
      let o' := eval cbv in o in change o with o' in Hx
  end;
  cbn [field_input] in Hx.

Ltac into_model Hx :=
  let kw := fresh "kw" in
  cbn [field_input] in Hx;
  apply validate_TModel_ok in Hx as (kw & [= <-] & Hx).

(** ** Helpers *)

Lemma collect_ext {A B : Type} (f g : A -> M B) : forall l h,
  (forall x h, In x l -> f x h = g x h) -> collect f l h = collect g l h.
Proof.
  induction l as [| x l IH]; intros h H; simpl; [reflexivity |].
  rewrite (H x h (in_eq _ _)).
  destruct (g x h) as [[b | es] h1];
    rewrite (IH h1 (fun y h' Hy => H y h' (in_cons _ _ _ Hy))); reflexivity.
Qed.

Lemma collect_field_names kw : forall fs h attrs h',
  collect (fun f => validate_field lax f kw) fs h = (Ok attrs, h') ->
  map fst attrs = map fname_of fs.
Proof.
  induction fs as [| f fs IH]; intros h attrs h' E; simpl in E.
  - now injection E as <- _.
  - destruct (validate_field lax f kw h) as [[b | es] h1] eqn:E1;
      destruct (collect _ fs h1) as [[bs | es2] h2] eqn:E2; try discriminate.
    injection E as <- <-. destruct f as [n t d].
    apply validate_field_ok in E1 as (x & -> & _).
    simpl. f_equal. eapply IH, E2.
Qed.

(** The instance a model call returns has the attributes of the declared
    fields, in their order. *)
Lemma validate_model_shape cls fs kw h v h' :
  validate_model lax (Model cls fs) kw h = (Ok v, h') ->
  exists a attrs,
    v = VRef a /\ h' !! a = Some (OInstance cls attrs) /\
    map fst attrs = map fname_of fs.
Proof.
  intros E. destruct (validate_model_ok _ _ _ _ _ _ _ E) as (attrs & hm & Ec & -> & ->).
  exists (length hm), attrs. split; [reflexivity |]. split.
  - now apply list_lookup_middle.
  - eapply collect_field_names, Ec.
Qed.

(** A field whose input always raises a line makes the model call raise it,
    located below the field. *)
Lemma field_raises cls fs kw n t d r e :
  In (Field n t d) fs -> dict_get n kw = Some r ->
  (forall h, exists es h', validate lax t r h = (Raise es, h') /\ In e es) ->
  forall h, exists es h',
    validate_model lax (Model cls fs) kw h = (Raise es, h') /\ In (at_loc (LKey n) e) es.
Proof.
  intros Hin Hk Hr. apply validate_model_raise_intro with (f := Field n t d); [exact Hin |].
  intros h. rewrite validate_field_eq, Hk. cbn [field_input].
  unfold mbind, M_bind, nested. destruct (Hr h) as (es & h' & -> & He).
  eexists _, _. split; [reflexivity |]. now apply in_map.
Qed.

Lemma validate_literal_refuses allowed r :
  (forall s, r = RStr s -> ~ In s allowed) ->
  validate_literal allowed r = raise [line (literal_error allowed)].
Proof.
  intros H. destruct r; try reflexivity. apply validate_literal_bad. now apply H.
Qed.

(** Reading [v.g.n] and [v.g.n.k] from the attribute steps. *)
Lemma getpath2 (h1 h : heap) v g x n y :
  getattr h v g = Some x -> h1 `prefix_of` h -> getattr h1 x n = Some y ->
  getpath h v [g; n] = Some y.
Proof.
  intros G P N. eapply getpath_cons; [exact G |]. eapply getpath_prefix; [exact P |].
  eapply getpath_cons; [exact N | reflexivity].
Qed.

Lemma getpath3 (h2 h1 h : heap) v g x n y k z :
  getattr h v g = Some x -> h1 `prefix_of` h -> getattr h1 x n = Some y ->
  h2 `prefix_of` h1 -> getattr h2 y k = Some z ->
  getpath h v [g; n; k] = Some z.
Proof.
  intros G P N P' K. eapply getpath_cons; [exact G |]. eapply getpath_prefix; [exact P |].
  eapply getpath2; eassumption.
Qed.

(** A value outside the literal set of a discriminator is refused. *)
Lemma discriminator_raises raw grp fld allowed kw r :
  In (grp, fld, allowed)
     [("llm", "mode", llm_modes);
      ("vectorstore", "database", ["chroma"; "qdrant"]);
      ("indexstore", "database", store_databases);
      ("documentstore", "database", store_databases)] ->
  dict_get grp raw = Some (RDict kw) ->
  dict_get fld kw = Some r ->
  (forall s, r = RStr s -> ~ In s allowed) ->
  forall h, exists es h',
    unsafe_typed_settings lax raw h = (Raise es, h') /\
    In (LineError [LKey grp; LKey fld] (literal_error allowed)) es.
Proof.
  intros Hin Hg Hf Hr.
  assert (Hlit : forall h, exists es h',
            validate lax (TLiteral allowed) r h = (Raise es, h') /\
            In (line (literal_error allowed)) es).
  { intros h. cbn [validate]. rewrite (validate_literal_refuses _ _ Hr).
    eexists _, _. split; [reflexivity | now left]. }
  simpl in Hin.
  destruct Hin as [[= <- <- <-] | [[= <- <- <-] | [[= <- <- <-] | [[= <- <- <-] | []]]]].
  - apply (field_raises "Settings" (fields_of Settings) raw "llm" (TModel LLMSettings) Required
             (RDict kw) (at_loc (LKey "mode") (line (literal_error llm_modes))));
      [simpl; tauto | exact Hg |].
    apply (field_raises "LLMSettings" (fields_of LLMSettings) kw "mode"
             (TLiteral llm_modes) Required r);
      [simpl; tauto | exact Hf | exact Hlit].
  - apply (field_raises "Settings" (fields_of Settings) raw "vectorstore"
             (TModel VectorstoreSettings) Required
             (RDict kw) (at_loc (LKey "database") (line (literal_error ["chroma"; "qdrant"]))));
      [simpl; tauto | exact Hg |].
    apply (field_raises "VectorstoreSettings" (fields_of VectorstoreSettings) kw "database"
             (TLiteral ["chroma"; "qdrant"]) Required r); [simpl; tauto | exact Hf | exact Hlit].
  - apply (field_raises "Settings" (fields_of Settings) raw "indexstore"
             (TModel IndexstoreSettings) Required
             (RDict kw) (at_loc (LKey "database") (line (literal_error store_databases))));
      [simpl; tauto | exact Hg |].
    apply (field_raises "IndexstoreSettings" (fields_of IndexstoreSettings) kw "database"
             (TLiteral store_databases) (Default (VStr "disk")) r);
      [simpl; tauto | exact Hf | exact Hlit].
  - apply (field_raises "Settings" (fields_of Settings) raw "documentstore"
             (TModel DocumentstoreSettings) Required
             (RDict kw) (at_loc (LKey "database") (line (literal_error store_databases))));
      [simpl; tauto | exact Hg |].
    apply (field_raises "DocumentstoreSettings" (fields_of DocumentstoreSettings) kw "database"
             (TLiteral store_databases) (Default (VStr "disk")) r);
      [simpl; tauto | exact Hf | exact Hlit].
Qed.

Lemma validate_literal_ok allowed r h v h' :
  validate_literal allowed r h = (Ok v, h') ->
  exists s, r = RStr s /\ In s allowed /\ v = VStr s.
Proof.
  unfold validate_literal. destruct r; try discriminate.
  destruct (existsb (String.eqb s) allowed) eqn:Ex; [| discriminate].
  intros [= <- _]. exists s. split; [reflexivity |]. split; [| reflexivity].
  now apply existsb_eqb_In.
Qed.

(** ** Keys and groups *)

(** X1.  A model call only looks up the names of its declared fields: two
    mappings that agree on them give the same result and the same heap, so
    any other key is ignored. *)
Theorem undeclared_keys_are_ignored m kw kw' h :
  (forall f, In f (fields_of m) ->
     dict_get (fname_of f) kw = dict_get (fname_of f) kw') ->
  validate_model lax m kw h = validate_model lax m kw' h.
Proof.
  destruct m as [cls fs]. intros H. cbn [fields_of] in H.
  rewrite !validate_model_eq. unfold mbind, M_bind.
  rewrite (collect_ext (fun f => validate_field lax f kw) (fun f => validate_field lax f kw')).
  - reflexivity.
  - intros [n t d] h0 Hin. rewrite !validate_field_eq.
    pose proof (H _ Hin) as Hd. cbn [fname_of] in Hd. now rewrite Hd.
Qed.

(** X2.  The four discriminators, [llm.mode], [vectorstore.database],
    [indexstore.database] and [documentstore.database]: a value that is not
    one of the strings of the literal set is refused with a line at the
    field that carries the set, and when the construction succeeds the given
    string is in the set and is bound as it was given. *)
Theorem discriminators_accept_only_their_literals raw grp fld allowed kw r :
  In (grp, fld, allowed)
     [("llm", "mode", llm_modes);
      ("vectorstore", "database", ["chroma"; "qdrant"]);
      ("indexstore", "database", store_databases);
      ("documentstore", "database", store_databases)] ->
  dict_get grp raw = Some (RDict kw) ->
  dict_get fld kw = Some r ->
  ((forall s, r = RStr s -> ~ In s allowed) ->
   forall h, exists es h',
     unsafe_typed_settings lax raw h = (Raise es, h') /\
     In (LineError [LKey grp; LKey fld] (literal_error allowed)) es) /\
  (forall h v h',
     unsafe_typed_settings lax raw h = (Ok v, h') ->
     exists s, r = RStr s /\ In s allowed /\ getpath h' v [grp; fld] = Some (VStr s)).
Proof.
  intros Hin Hg Hf. split.
  - intros Hr. now apply (discriminator_raises raw grp fld allowed kw r).
  - intros h v h' E. simpl in Hin.
    repeat (destruct Hin as [[= <- <- <-] | Hin];
      [ match goal with
        | |- exists _, _ /\ _ /\ getpath _ _ [?G; ?F] = _ =>
            attr E G xs Hgs X Hps Hxs; rewrite Hg in Hxs; into_model Hxs;
            attr Hxs F y Hgy X' Hpy Hxy; rewrite Hf in Hxy;
            cbn [field_input validate] in Hxy;
            apply validate_literal_ok in Hxy as (s & -> & Hs & ->);
            exists s; split; [reflexivity |]; split; [exact Hs |];
            eapply getpath2; eassumption
        end |]).
    contradiction.
Qed.

(** ** The server group *)


(** X4.  [server.jwt_auth].  Omitted, the factory builds it: disabled, with
    the example JWKS address and the claims [ingest], [sub] and the audience
    [privateGPT].  Given as a mapping, [jwks_url] is required, and each of
    the four other fields that is omitted takes its declared default. *)
Theorem jwt_auth_defaults raw kws :
  dict_get "server" raw = Some (RDict kws) ->
  (dict_get "jwt_auth" kws = None ->
   forall h v h', unsafe_typed_settings lax raw h = (Ok v, h') ->
     getpath h' v ["server"; "jwt_auth"; "enabled"] = Some (VBool false) /\
     getpath h' v ["server"; "jwt_auth"; "jwks_url"] =
       Some (VStr "https://example.com/.well-known/jwks.json") /\
     getpath h' v ["server"; "jwt_auth"; "ingest_claim"] = Some (VStr "ingest") /\
     getpath h' v ["server"; "jwt_auth"; "user_id_claim"] = Some (VStr "sub") /\
     getpath h' v ["server"; "jwt_auth"; "audience"] = Some (VStr "privateGPT")) /\
  (forall kwj, dict_get "jwt_auth" kws = Some (RDict kwj) ->
     (dict_get "jwks_url" kwj = None ->
      forall h, exists es h',
        unsafe_typed_settings lax raw h = (Raise es, h') /\
        In (LineError [LKey "server"; LKey "jwt_auth"; LKey "jwks_url"] missing) es) /\
     (forall h v h' n dv,
        unsafe_typed_settings lax raw h = (Ok v, h') ->
        In (n, dv) [("enabled", VBool false); ("ingest_claim", VStr "ingest");
                    ("user_id_claim", VStr "sub"); ("audience", VStr "privateGPT")] ->
        dict_get n kwj = None ->
        getpath h' v ["server"; "jwt_auth"; n] = Some dv)).
Proof.
  intros Hs. split.
  - intros Hj h v h' E.
    attr E "server" xs Hgs X Hps Hxs. rewrite Hs in Hxs. into_model Hxs.
    attr Hxs "jwt_auth" xj Hgj X' Hpj Hxj. rewrite Hj in Hxj.
    cbn [field_input absent_field] in Hxj.
    repeat split.
    all: match goal with
         | |- getpath _ _ [_; _; ?n] = _ =>
             attr_of Hxj n y Hgy X'' Hpy Hxy; injection Hxy as <- _;
             eapply getpath3; eassumption
         end.
  - intros kwj Hj. split.
    + intros Hu.
      apply (absent_in_raises lax Settings raw ["server"; "jwt_auth"; "jwks_url"]).
      apply (absent_below _ _ _ "server" (TModel ServerSettings) Required ServerSettings kws
               ["jwt_auth"; "jwks_url"]); [simpl; tauto | reflexivity | exact Hs |].
      eapply (absent_below _ _ _ "jwt_auth" (TModel JWTAuthSettings) _ JWTAuthSettings kwj
                ["jwks_url"]); [simpl; tauto | reflexivity | exact Hj |].
      apply (absent_here _ _ _ "jwks_url" TStr); [simpl; tauto | exact Hu].
    + intros h v h' n dv E Hn Hk.
      attr E "server" xs Hgs X Hps Hxs. rewrite Hs in Hxs. into_model Hxs.
      attr Hxs "jwt_auth" xj Hgj X' Hpj Hxj. rewrite Hj in Hxj. into_model Hxj.
      simpl in Hn.
      repeat (destruct Hn as [[= <- <-] | Hn];
        [ match goal with
          | |- getpath _ _ [_; _; ?n] = _ =>
              attr Hxj n y Hgy X'' Hpy Hxy; rewrite Hk in Hxy; injection Hxy as <- _;
              eapply getpath3; eassumption
          end |]).
      contradiction.
Qed.

(** X5.  [server.basic_auth] given as a mapping: [secret] is required (the
    [secret-key] of the factory only serves when the whole group is
    omitted), a given string is bound as it is, and [enabled] defaults to
    [False]. *)
Theorem basic_auth_given_needs_secret raw kws kwb :
  dict_get "server" raw = Some (RDict kws) ->
  dict_get "basic_auth" kws = Some (RDict kwb) ->
  (dict_get "secret" kwb = None ->
   forall h, exists es h',
     unsafe_typed_settings lax raw h = (Raise es, h') /\
     In (LineError [LKey "server"; LKey "basic_auth"; LKey "secret"] missing) es) /\
  (forall s h v h',
     dict_get "secret" kwb = Some (RStr s) ->
     unsafe_typed_settings lax raw h = (Ok v, h') ->
     getpath h' v ["server"; "basic_auth"; "secret"] = Some (VStr s) /\
     (dict_get "enabled" kwb = None ->
      getpath h' v ["server"; "basic_auth"; "enabled"] = Some (VBool false))).
Proof.
  intros Hs Hb. split.
  - intros Hk.
    apply (absent_in_raises lax Settings raw ["server"; "basic_auth"; "secret"]).
    apply (absent_below _ _ _ "server" (TModel ServerSettings) Required ServerSettings kws
             ["basic_auth"; "secret"]); [simpl; tauto | reflexivity | exact Hs |].
    eapply (absent_below _ _ _ "basic_auth" (TModel BasicAuthSettings) _ BasicAuthSettings kwb
              ["secret"]); [simpl; tauto | reflexivity | exact Hb |].
    apply (absent_here _ _ _ "secret" TStr); [simpl; tauto | exact Hk].
  - intros s h v h' Hk E.
    attr E "server" xs Hgs X Hps Hxs. rewrite Hs in Hxs. into_model Hxs.
    attr Hxs "basic_auth" xb Hgb X' Hpb Hxb. rewrite Hb in Hxb. into_model Hxb.
    split.
    + attr Hxb "secret" y Hgy X'' Hpy Hxy. rewrite Hk in Hxy. injection Hxy as <- _.
      eapply getpath3; eassumption.
    + intros He. attr Hxb "enabled" y Hgy X'' Hpy Hxy. rewrite He in Hxy.
      injection Hxy as <- _. eapply getpath3; eassumption.
Qed.

(** ** The store groups *)

(** The connection defaults of a store group [m], read from the instance [xs]
    it validated to. *)
Lemma store_group_defaults m ns kw hi xs hi' :
  In (m, ns) [(DocumentstoreSettings, "private_gpt_documents");
              (IndexstoreSettings, "private_gpt_index")] ->
  validate_model lax m kw hi = (Ok xs, hi') ->
  (dict_get "namespace" kw = None -> getpath hi' xs ["namespace"] = Some (VStr ns)) /\
  (raw_path (RDict kw) ["redis"; "host"] = None ->
     getpath hi' xs ["redis"; "host"] = Some (VStr "redis")) /\
  (raw_path (RDict kw) ["redis"; "port"] = None ->
     getpath hi' xs ["redis"; "port"] = Some (VInt 6379)) /\
  (raw_path (RDict kw) ["dynamodb"; "table_name"] = None ->
     getpath hi' xs ["dynamodb"; "table_name"] = Some (VStr "dummy_table")).
Proof.
  intros Hm E.
  assert (Hsub : forall g k dv sub kwargs,
            In (g, k, dv, sub, kwargs)
               [("redis", "host", VStr "redis", RedisSettings,
                 [("host", RStr "redis"); ("port", RInt 6379)]);
                ("redis", "port", VInt 6379, RedisSettings,
                 [("host", RStr "redis"); ("port", RInt 6379)]);
                ("dynamodb", "table_name", VStr "dummy_table", DynamoDBSettings,
                 [("table_name", RStr "dummy_table")])] ->
            forall xg hg hg',
              field_input lax (TModel sub) (DefaultFactory sub kwargs) (dict_get g kw) hg
                = (Ok xg, hg') ->
              raw_path (RDict kw) [g; k] = None ->
              getattr hg' xg k = Some dv).
  { intros g k dv sub kwargs Hin xg hg hg' Hx Hraw. cbn [raw_path] in Hraw.
    simpl in Hin.
    destruct Hin as [[= <- <- <- <- <-] | [[= <- <- <- <- <-] | [[= <- <- <- <- <-] | []]]];
      (destruct (dict_get _ kw) as [rg |];
       [ cbn [field_input] in Hx; apply validate_TModel_ok in Hx as (kwg & -> & Hx);
         match goal with
         | |- getattr _ _ ?k = _ =>
             attr Hx k y Hgy X Hpy Hxy;
             destruct (dict_get k kwg); [discriminate Hraw |];
             injection Hxy as <- _; exact Hgy
         end
       | cbn [field_input absent_field] in Hx;
         match goal with
         | |- getattr _ _ ?k = _ =>
             attr_of Hx k y Hgy X Hpy Hxy; injection Hxy as <- _; exact Hgy
         end ]). }
  simpl in Hm. destruct Hm as [[= <- <-] | [[= <- <-] | []]].
  - repeat split.
    + intros Hk. attr E "namespace" y Hgy X Hpy Hxy. rewrite Hk in Hxy.
      injection Hxy as <- _. eapply getpath_cons; [exact Hgy | reflexivity].
    + intros Hraw. attr E "redis" y Hgy X Hpy Hxy.
      eapply getpath_cons; [exact Hgy |]. eapply getpath_prefix; [exact Hpy |].
      eapply getpath_cons; [| reflexivity].
      eapply (Hsub "redis" "host"); [simpl; tauto | exact Hxy | exact Hraw].
    + intros Hraw. attr E "redis" y Hgy X Hpy Hxy.
      eapply getpath_cons; [exact Hgy |]. eapply getpath_prefix; [exact Hpy |].
      eapply getpath_cons; [| reflexivity].
      eapply (Hsub "redis" "port"); [simpl; tauto | exact Hxy | exact Hraw].
    + intros Hraw. attr E "dynamodb" y Hgy X Hpy Hxy.
      eapply getpath_cons; [exact Hgy |]. eapply getpath_prefix; [exact Hpy |].
      eapply getpath_cons; [| reflexivity].
      eapply (Hsub "dynamodb" "table_name"); [simpl; tauto | exact Hxy | exact Hraw].
  - repeat split.
    + intros Hk. attr E "namespace" y Hgy X Hpy Hxy. rewrite Hk in Hxy.
      injection Hxy as <- _. eapply getpath_cons; [exact Hgy | reflexivity].
    + intros Hraw. attr E "redis" y Hgy X Hpy Hxy.
      eapply getpath_cons; [exact Hgy |]. eapply getpath_prefix; [exact Hpy |].
      eapply getpath_cons; [| reflexivity].
      eapply (Hsub "redis" "host"); [simpl; tauto | exact Hxy | exact Hraw].
    + intros Hraw. attr E "redis" y Hgy X Hpy Hxy.
      eapply getpath_cons; [exact Hgy |]. eapply getpath_prefix; [exact Hpy |].
      eapply getpath_cons; [| reflexivity].
      eapply (Hsub "redis" "port"); [simpl; tauto | exact Hxy | exact Hraw].
    + intros Hraw. attr E "dynamodb" y Hgy X Hpy Hxy.
      eapply getpath_cons; [exact Hgy |]. eapply getpath_prefix; [exact Hpy |].
      eapply getpath_cons; [| reflexivity].
      eapply (Hsub "dynamodb" "table_name"); [simpl; tauto | exact Hxy | exact Hraw].
Qed.

(** X6.  The connection settings of [documentstore] and [indexstore]: an
    omitted [namespace] is the one declared for the store, and
    [redis.host], [redis.port] and [dynamodb.table_name] are [redis], [6379]
    and [dummy_table] when they are not given, whether the sub-group is
    omitted (the factory builds it) or given without the field (the field's
    own default). *)
Theorem store_connection_defaults raw store ns h v h' :
  In (store, ns) [("documentstore", "private_gpt_documents");
                  ("indexstore", "private_gpt_index")] ->
  unsafe_typed_settings lax raw h = (Ok v, h') ->
  (raw_path (RDict raw) [store; "namespace"] = None ->
     getpath h' v [store; "namespace"] = Some (VStr ns)) /\
  (raw_path (RDict raw) [store; "redis"; "host"] = None ->
     getpath h' v [store; "redis"; "host"] = Some (VStr "redis")) /\
  (raw_path (RDict raw) [store; "redis"; "port"] = None ->
     getpath h' v [store; "redis"; "port"] = Some (VInt 6379)) /\
  (raw_path (RDict raw) [store; "dynamodb"; "table_name"] = None ->
     getpath h' v [store; "dynamodb"; "table_name"] = Some (VStr "dummy_table")).
Proof.
  intros Hin E.
  assert (exists m xs hi hi' kw,
            In (m, ns) [(DocumentstoreSettings, "private_gpt_documents");
                        (IndexstoreSettings, "private_gpt_index")] /\
            dict_get store raw = Some (RDict kw) /\
            getattr h' v store = Some xs /\ hi' `prefix_of` h' /\
            validate_model lax m kw hi = (Ok xs, hi'))
    as (m & xs & hi & hi' & kw & Hm & Hs & Hg & Hp & Hx).
  { simpl in Hin. destruct Hin as [[= <- <-] | [[= <- <-] | []]].
    - attr E "documentstore" xs Hg X Hp Hx.
      destruct (dict_get "documentstore" raw) as [r |] eqn:Es; [| discriminate Hx].
      cbn [field_input] in Hx. apply validate_TModel_ok in Hx as (kw & -> & Hx).
      exists DocumentstoreSettings, xs, hi, hi', kw. simpl. auto 10.
    - attr E "indexstore" xs Hg X Hp Hx.
      destruct (dict_get "indexstore" raw) as [r |] eqn:Es; [| discriminate Hx].
      cbn [field_input] in Hx. apply validate_TModel_ok in Hx as (kw & -> & Hx).
      exists IndexstoreSettings, xs, hi, hi', kw. simpl. auto 10. }
  destruct (store_group_defaults _ _ _ _ _ _ Hm Hx) as (D1 & D2 & D3 & D4).
  assert (Hraw : forall p, raw_path (RDict raw) (store :: p) = raw_path (RDict kw) p).
  { intros p. cbn [raw_path]. now rewrite Hs. }
  assert (Hread : forall p y, getpath hi' xs p = Some y -> getpath h' v (store :: p) = Some y).
  { intros p y Hy. eapply getpath_cons; [exact Hg |]. eapply getpath_prefix; eassumption. }
  repeat split; intros Hr; rewrite Hraw in Hr; apply Hread; auto.
  apply D1. cbn [raw_path] in Hr. now destruct (dict_get "namespace" kw).
Qed.

(** ** The CORS group *)

(** A class-level list default of [CorsSettings] is copied into a new list. *)
Lemma default_list_copied h k items :
  module_heap `prefix_of` h ->
  In (k, items) [(0%nat, []); (1%nat, [VStr "GET"]); (2%nat, [])] ->
  default_value (VRef k) h = (Ok (VRef (length h)), h ++ [OList items]).
Proof.
  intros Hp Hk.
  pose proof (prefix_length _ _ Hp) as Hlen. change (length module_heap) with 7%nat in Hlen.
  assert (El : exists n, length h = S n) by (exists (length h - 1)%nat; lia).
  destruct El as [n El].
  unfold default_value. cbn [hashable]. rewrite El at 1.
  simpl in Hk. destruct Hk as [[= <- <-] | [[= <- <-] | [[= <- <-] | []]]].
  - now rewrite (deepcopy_scalar_list n 0 [] h
                   (prefix_lookup_Some module_heap h 0%nat _ eq_refl Hp) eq_refl).
  - now rewrite (deepcopy_scalar_list n 1 [VStr "GET"] h
                   (prefix_lookup_Some module_heap h 1%nat _ eq_refl Hp) eq_refl).
  - now rewrite (deepcopy_scalar_list n 2 [] h
                   (prefix_lookup_Some module_heap h 2%nat _ eq_refl Hp) eq_refl).
Qed.

(** X7.  The defaults of the fields of [server.cors], whether the group is
    omitted or given without the field: [enabled] and [allow_credentials]
    are [False]; [allow_origins], [allow_methods] and [allow_headers] are
    lists holding nothing, [GET] and nothing, and each is a list allocated
    by this construction, not the list of the class statement. *)
Theorem cors_field_defaults raw h v h' :
  module_heap `prefix_of` h ->
  unsafe_typed_settings lax raw h = (Ok v, h') ->
  (forall n, In n ["enabled"; "allow_credentials"] ->
     raw_path (RDict raw) ["server"; "cors"; n] = None ->
     getpath h' v ["server"; "cors"; n] = Some (VBool false)) /\
  (forall n items,
     In (n, items) [("allow_origins", []); ("allow_methods", [VStr "GET"]);
                    ("allow_headers", [])] ->
     raw_path (RDict raw) ["server"; "cors"; n] = None ->
     exists l,
       getpath h' v ["server"; "cors"; n] = Some (VRef l) /\
       h' !! l = Some (OList items) /\
       (length h <= l)%nat).
Proof.
  intros Hh E.
  attr E "server" xs Hgs X Hps Hxs.
  destruct (dict_get "server" raw) as [rs |] eqn:Es; [| discriminate Hxs].
  cbn [field_input] in Hxs. apply validate_TModel_ok in Hxs as (kws & -> & Hxs).
  attr Hxs "cors" xc Hgc X' Hpc Hxc.
  match type of Hxc with field_input _ _ _ _ ?hj = _ => rename hj into hc end.
  assert (Hhc : module_heap `prefix_of` hc).
  { etransitivity; [exact Hh |]. etransitivity; apply extends_prefix; eassumption. }
  pose proof (extends_length _ _ X) as L1. pose proof (extends_length _ _ X') as L2.
  assert (Hraw : forall n, raw_path (RDict raw) ["server"; "cors"; n] =
                           raw_path (RDict kws) ["cors"; n]).
  { intros n. cbn [raw_path]. now rewrite Es. }
  destruct (dict_get "cors" kws) as [rc |] eqn:Ec.
  - cbn [field_input] in Hxc. apply validate_TModel_ok in Hxc as (kwc & -> & Hxc).
    split.
    + intros n Hn Hr. rewrite Hraw in Hr. cbn [raw_path] in Hr. rewrite Ec in Hr.
      simpl in Hn. destruct Hn as [<- | [<- | []]].
      * attr Hxc "enabled" y Hgy X'' Hpy Hxy.
        destruct (dict_get "enabled" kwc); [discriminate Hr |].
        injection Hxy as <- _. eapply getpath3; eassumption.
      * attr Hxc "allow_credentials" y Hgy X'' Hpy Hxy.
        destruct (dict_get "allow_credentials" kwc); [discriminate Hr |].
        injection Hxy as <- _. eapply getpath3; eassumption.
    + intros n items Hn Hr. rewrite Hraw in Hr. cbn [raw_path] in Hr. rewrite Ec in Hr.
      simpl in Hn.
      destruct Hn as [[= <- <-] | [[= <- <-] | [[= <- <-] | []]]].
      * attr Hxc "allow_origins" y Hgy X'' Hpy Hxy.
        destruct (dict_get "allow_origins" kwc); [discriminate Hr |].
        cbn [field_input absent_field] in Hxy.
        rewrite (default_list_copied _ 0 []) in Hxy;
          [| etransitivity; [exact Hhc | apply extends_prefix, X''] | simpl; tauto].
        injection Hxy as <- Hy. pose proof (extends_length _ _ X'') as L3.
        eexists. split; [eapply getpath3; eassumption |]. split; [| lia].
        eapply prefix_lookup_Some; [| exact Hps]. eapply prefix_lookup_Some; [| exact Hpc].
        eapply prefix_lookup_Some; [| exact Hpy]. rewrite <- Hy. now apply list_lookup_middle.
      * attr Hxc "allow_methods" y Hgy X'' Hpy Hxy.
        destruct (dict_get "allow_methods" kwc); [discriminate Hr |].
        cbn [field_input absent_field] in Hxy.
        rewrite (default_list_copied _ 1 [VStr "GET"]) in Hxy;
          [| etransitivity; [exact Hhc | apply extends_prefix, X''] | simpl; tauto].
        injection Hxy as <- Hy. pose proof (extends_length _ _ X'') as L3.
        eexists. split; [eapply getpath3; eassumption |]. split; [| lia].
        eapply prefix_lookup_Some; [| exact Hps]. eapply prefix_lookup_Some; [| exact Hpc].
        eapply prefix_lookup_Some; [| exact Hpy]. rewrite <- Hy. now apply list_lookup_middle.
      * attr Hxc "allow_headers" y Hgy X'' Hpy Hxy.
        destruct (dict_get "allow_headers" kwc); [discriminate Hr |].
        cbn [field_input absent_field] in Hxy.
        rewrite (default_list_copied _ 2 []) in Hxy;
          [| etransitivity; [exact Hhc | apply extends_prefix, X''] | simpl; tauto].
        injection Hxy as <- Hy. pose proof (extends_length _ _ X'') as L3.
        eexists. split; [eapply getpath3; eassumption |]. split; [| lia].
        eapply prefix_lookup_Some; [| exact Hps]. eapply prefix_lookup_Some; [| exact Hpc].
        eapply prefix_lookup_Some; [| exact Hpy]. rewrite <- Hy. now apply list_lookup_middle.
  - cbn [field_input absent_field] in Hxc.
    rewrite default_cors_copied in Hxc by exact Hhc.
    injection Hxc as <- Hc.
    assert (P : forall k o, cors_default_copy (length hc) !! k = Some o ->
                            h' !! (k + length hc)%nat = Some o).
    { intros k o Hk. eapply prefix_lookup_Some; [| exact Hps].
      eapply prefix_lookup_Some; [| exact Hpc]. rewrite <- Hc.
      rewrite lookup_app_r by lia.
      now replace (k + length hc - length hc)%nat with k by lia. }
    assert (R : forall n y,
              getattr (hc ++ cors_default_copy (length hc)) (VRef (3 + length hc)) n
                = Some y ->
              getpath h' v ["server"; "cors"; n] = Some y).
    { intros n y Hy. rewrite Hc in Hy. eapply getpath3; eassumption. }
    split.
    + intros n Hn _. apply R. rewrite getattr_cors_copy.
      simpl in Hn. destruct Hn as [<- | [<- | []]]; reflexivity.
    + intros n items Hn _. simpl in Hn.
      destruct Hn as [[= <- <-] | [[= <- <-] | [[= <- <-] | []]]].
      * exists (0 + length hc)%nat. split; [apply R; now rewrite getattr_cors_copy |].
        split; [now apply P | lia].
      * exists (1 + length hc)%nat. split; [apply R; now rewrite getattr_cors_copy |].
        split; [now apply P | lia].
      * exists (2 + length hc)%nat. split; [apply R; now rewrite getattr_cors_copy |].
        split; [now apply P | lia].
Qed.

(** A sequence of strings validates to those strings, in order, and
    allocates nothing. *)
Lemma collect_strings (f : raw -> M value) :
  (forall s h, f (RStr s) h = (Ok (VStr s), h)) ->
  forall ss (g : nat -> nat) h,
    collect (fun '(i, r) => nested (LIdx i) (f r))
            (imap (fun i r => (g i, r)) (map RStr ss)) h
    = (Ok (map VStr ss), h).
Proof.
  intros Hf. induction ss as [| s ss IH]; intros g h; [reflexivity |].
  cbn [map imap collect]. unfold nested at 1. rewrite Hf.
  pose proof (IH (fun i => g (S i)) h) as E. cbn beta in E.
  unfold compose. cbn beta. rewrite E. reflexivity.
Qed.

(** An item that does not validate makes the sequence raise its lines below
    the item's index. *)
Lemma collect_items_raise (f : raw -> M value) items i r e :
  items !! i = Some r ->
  (forall h, exists es h', f r h = (Raise es, h') /\ In e es) ->
  forall h, exists es h',
    collect_items f items h = (Raise es, h') /\ In (at_loc (LIdx i) e) es.
Proof.
  intros Hi Hr. unfold collect_items.
  apply (collect_raise_intro _ _ (i, r)).
  - apply list_elem_of_In. apply elem_of_lookup_imap. eauto.
  - intros h. unfold nested. destruct (Hr h) as (es & h' & -> & He).
    eexists _, _. split; [reflexivity |]. now apply in_map.
Qed.

Lemma validate_list_of_strings ss h :
  validate lax (TList TStr) (RList (map RStr ss)) h =
  (Ok (VRef (length h)), h ++ [OList (map VStr ss)]).
Proof.
  cbn [validate]. unfold mbind, M_bind, collect_items.
  rewrite (collect_strings (validate_str lax)); [reflexivity |].
  reflexivity.
Qed.

(** X8.  The four fields of [server.cors] annotated [list[str]],
    [allow_origin_regex] among them: a given list of strings is bound to a
    new list of the same strings in the same order; an item that is no
    string, and that no conversion turns into one, is refused with a line
    at the item's index; a value that is no list, a single string included,
    is refused with a [list_type] line. *)
Theorem cors_lists_bound_in_order raw kws kwc fld :
  In fld ["allow_origins"; "allow_origin_regex"; "allow_methods"; "allow_headers"] ->
  dict_get "server" raw = Some (RDict kws) ->
  dict_get "cors" kws = Some (RDict kwc) ->
  (forall ss h v h',
     dict_get fld kwc = Some (RList (map RStr ss)) ->
     unsafe_typed_settings lax raw h = (Ok v, h') ->
     exists l,
       getpath h' v ["server"; "cors"; fld] = Some (VRef l) /\
       h' !! l = Some (OList (map VStr ss)) /\
       (length h <= l)%nat) /\
  (forall items i r,
     dict_get fld kwc = Some (RList items) ->
     items !! i = Some r ->
     (forall s, r <> RStr s) -> lax_str lax r = None ->
     forall h, exists es h',
       unsafe_typed_settings lax raw h = (Raise es, h') /\
       In (LineError [LKey "server"; LKey "cors"; LKey fld; LIdx i] string_type) es) /\
  (forall r,
     dict_get fld kwc = Some r ->
     (forall items, r <> RList items) ->
     forall h, exists es h',
       unsafe_typed_settings lax raw h = (Raise es, h') /\
       In (LineError [LKey "server"; LKey "cors"; LKey fld] list_type) es).
Proof.
  intros Hfld Hs Hc.
  assert (Hdecl : exists d, In (Field fld (TList TStr) d) (fields_of CorsSettings) /\
                            find_field fld (fields_of CorsSettings) =
                              Some (Field fld (TList TStr) d)).
  { simpl in Hfld. destruct Hfld as [<- | [<- | [<- | [<- | []]]]];
      eexists; (split; [simpl; auto 10 | reflexivity]). }
  destruct Hdecl as (d & Hin & Hfind).
  assert (Hup : forall r e,
            dict_get fld kwc = Some r ->
            (forall h, exists es h', validate lax (TList TStr) r h = (Raise es, h') /\ In e es) ->
            forall h, exists es h',
              unsafe_typed_settings lax raw h = (Raise es, h') /\
              In (at_loc (LKey "server") (at_loc (LKey "cors") (at_loc (LKey fld) e))) es).
  { intros r e Hf Hr.
    apply (field_raises "Settings" (fields_of Settings) raw "server" (TModel ServerSettings)
             Required (RDict kws)); [simpl; tauto | exact Hs |].
    apply (field_raises "ServerSettings" (fields_of ServerSettings) kws "cors"
             (TModel CorsSettings) (Default (VRef 6)) (RDict kwc)); [simpl; tauto | exact Hc |].
    apply (field_raises "CorsSettings" (fields_of CorsSettings) kwc fld (TList TStr) d r);
      [exact Hin | exact Hf | exact Hr]. }
  split; [| split].
  - intros ss h v h' Hf E.
    attr E "server" xs Hgs X Hps Hxs. rewrite Hs in Hxs. into_model Hxs.
    attr Hxs "cors" xc Hgc X' Hpc Hxc. rewrite Hc in Hxc. into_model Hxc.
    destruct (validate_model_attr lax _ _ _ _ _ _ fld _ _ Hxc Hfind)
      as (ay & attrsy & y & hj & hj' & _ & _ & _ & _ & _ & Hgy & X'' & _ & Hpy & _ & _ & Hxy).
    rewrite Hf in Hxy. cbn [field_input] in Hxy.
    rewrite validate_list_of_strings in Hxy. injection Hxy as <- Hy.
    pose proof (extends_length _ _ X). pose proof (extends_length _ _ X').
    pose proof (extends_length _ _ X'').
    eexists. split; [eapply getpath3; eassumption |]. split; [| lia].
    eapply prefix_lookup_Some; [| exact Hps]. eapply prefix_lookup_Some; [| exact Hpc].
    eapply prefix_lookup_Some; [| exact Hpy]. rewrite <- Hy. now apply list_lookup_middle.
  - intros items i r Hf Hi Hnot Hlax.
    apply (Hup (RList items) (at_loc (LIdx i) (line string_type)) Hf).
    intros h. cbn [validate]. unfold mbind, M_bind.
    destruct (collect_items_raise (fun r0 => validate_str lax r0) items i r
                (line string_type) Hi)
      with (h := h) as (es & h' & -> & He).
    + intros h0. unfold validate_str.
      destruct r; try (rewrite Hlax; eexists _, _; split; [reflexivity | now left]).
      now contradiction (Hnot s).
    + eexists _, _. split; [reflexivity | exact He].
  - intros r Hf Hnot.
    apply (Hup r (line list_type) Hf).
    intros h. cbn [validate].
    destruct r; try (eexists _, _; split; [reflexivity | now left]).
    now contradiction (Hnot items).
Qed.

(** ** The instance as a whole *)

(** X9.  A [Settings] that was constructed has exactly the eleven declared
    attributes, in the order of the class body, and each of the ten
    required groups is an instance of the class it is annotated with. *)
Theorem settings_instance_has_every_group raw h v h' :
  unsafe_typed_settings lax raw h = (Ok v, h') ->
  exists a attrs,
    v = VRef a /\ h' !! a = Some (OInstance "Settings" attrs) /\
    map fst attrs =
      ["server"; "data"; "ui"; "llm"; "local"; "sagemaker"; "openai";
       "vectorstore"; "indexstore"; "documentstore"; "qdrant"] /\
    forall n c,
      In (n, c) [("server", "ServerSettings"); ("data", "DataSettings");
                 ("ui", "UISettings"); ("llm", "LLMSettings");
                 ("local", "LocalSettings"); ("sagemaker", "SagemakerSettings");
                 ("openai", "OpenAISettings"); ("vectorstore", "VectorstoreSettings");
                 ("indexstore", "IndexstoreSettings");
                 ("documentstore", "DocumentstoreSettings")] ->
      exists b battrs,
        dict_get n attrs = Some (VRef b) /\ h' !! b = Some (OInstance c battrs).
Proof.
  intros E.
  destruct (validate_model_shape _ _ _ _ _ _ E) as (a & attrs & -> & Ha & Hn).
  exists a, attrs. repeat split; auto.
  intros n c Hin. simpl in Hin.
  repeat (destruct Hin as [[= <- <-] | Hin];
    [ match goal with
      | |- exists _ _, dict_get ?n _ = _ /\ _ =>
          destruct (validate_model_attr lax _ _ _ _ _ _ n _ _ E eq_refl)
            as (a' & attrs' & x & hi & hi' & [= <-] & _ & _ & Ha' & Hd & _ & _ & _ & Hp & _ & _ & Hx);
          rewrite Ha in Ha'; injection Ha' as <-;
          destruct (dict_get n raw) as [r |]; [| discriminate Hx];
          cbn [field_input] in Hx; apply validate_TModel_ok in Hx as (kw & -> & Hx);
          destruct (validate_model_shape _ _ _ _ _ _ Hx) as (b & battrs & -> & Hb & _);
          exists b, battrs; split; [exact Hd |];
          eapply prefix_lookup_Some; [exact Hb | exact Hp]
      end |]).
  contradiction.
Qed.

(** X10.  A group must be a mapping: a group given as anything else (a
    scalar, a list, null) is refused with a line at the group that names its
    class.  Only [qdrant] accepts null, and is then [None]. *)
Theorem group_must_be_a_mapping raw :
  (forall grp cls r,
     In (grp, cls) [("server", ServerSettings); ("data", DataSettings); ("ui", UISettings);
                    ("llm", LLMSettings); ("local", LocalSettings);
                    ("sagemaker", SagemakerSettings); ("openai", OpenAISettings);
                    ("vectorstore", VectorstoreSettings);
                    ("indexstore", IndexstoreSettings);
                    ("documentstore", DocumentstoreSettings);
                    ("qdrant", QdrantSettings)] ->
     dict_get grp raw = Some r ->
     (forall kw, r <> RDict kw) -> (grp = "qdrant" -> r <> RNone) ->
     forall h, exists es h',
       unsafe_typed_settings lax raw h = (Raise es, h') /\
       In (LineError [LKey grp] (model_type (cls_of cls))) es) /\
  (dict_get "qdrant" raw = Some RNone ->
   forall h v h', unsafe_typed_settings lax raw h = (Ok v, h') ->
     getattr h' v "qdrant" = Some VNone).
Proof.
  split.
  - intros grp cls r Hin Hg Hnd Hnn h.
    assert (Hr : forall t, (t = TModel cls \/ (t = TOptional (TModel cls) /\ r <> RNone)) ->
              forall h, exists es h',
                validate lax t r h = (Raise es, h') /\ In (line (model_type (cls_of cls))) es).
    { intros t Ht h0.
      destruct Ht as [-> | [-> Hn]]; cbn [validate];
        destruct r; try (eexists _, _; split; [reflexivity | now left]);
        first [now contradiction (Hnd entries) | now contradiction Hn]. }
    simpl in Hin.
    repeat (destruct Hin as [[= <- <-] | Hin];
      [ eapply (field_raises "Settings" (fields_of Settings) raw _ _ _ r
                  (line (model_type _))); [simpl; auto 12 | exact Hg | apply Hr; auto] |]).
    contradiction.
  - intros Hq h v h' E. attr E "qdrant" q Hg X Hp Hx.
    rewrite Hq in Hx. injection Hx as <- _. exact Hg.
Qed.

Lemma construct_all_prefix raws : forall h, h `prefix_of` construct_all lax raws h.
Proof.
  induction raws as [| r raws IH]; intros h; cbn [construct_all]; [reflexivity |].
  etransitivity; [| apply IH].
  destruct (unsafe_typed_settings lax r h) as [res h1] eqn:E. cbn [snd].
  apply extends_prefix. exact (proj1 (validate_model_tidy lax _ _ _ _ _ E)).
Qed.

(** X11.  Constructions never touch what is there: after any number of
    constructions, successful or not, every object that existed before is
    unchanged at its address, so every path read from an earlier instance,
    or from a class-level default, reads what it read before. *)
Theorem constructions_preserve_the_heap raws h :
  h `prefix_of` construct_all lax raws h /\
  (forall a o, h !! a = Some o -> construct_all lax raws h !! a = Some o) /\
  (forall v p x, getpath h v p = Some x -> getpath (construct_all lax raws h) v p = Some x).
Proof.
  pose proof (construct_all_prefix raws h) as Hp.
  split; [exact Hp |]. split.
  - intros a o Ha. eapply prefix_lookup_Some; eassumption.
  - intros v p x Hx. eapply getpath_prefix; eassumption.
Qed.

(** ** Failures *)

(** X12.  Validation goes on after a failure: a mapping in which a required
    field is absent and a discriminator holds a value outside its literal
    set raises once, with both lines. *)
Theorem errors_are_reported_together raw p grp fld allowed kw r :
  absent_in Settings raw p ->
  In (grp, fld, allowed)
     [("llm", "mode", llm_modes);
      ("vectorstore", "database", ["chroma"; "qdrant"]);
      ("indexstore", "database", store_databases);
      ("documentstore", "database", store_databases)] ->
  dict_get grp raw = Some (RDict kw) ->
  dict_get fld kw = Some r ->
  (forall s, r = RStr s -> ~ In s allowed) ->
  forall h, exists es h',
    unsafe_typed_settings lax raw h = (Raise es, h') /\
    In (LineError (map LKey p) missing) es /\
    In (LineError [LKey grp; LKey fld] (literal_error allowed)) es.
Proof.
  intros Ha Hin Hg Hf Hr h.
  destruct (absent_in_raises lax Settings raw p Ha h) as (es & h' & E & He).
  destruct (discriminator_raises raw grp fld allowed kw r Hin Hg Hf Hr h)
    as (es2 & h2 & E2 & He2).
  unfold unsafe_typed_settings in E2. rewrite E in E2. injection E2 as <- <-.
  exists es, h'. auto.
Qed.

Lemma collect_raise_nonempty {A B : Type} (f : A -> M B) : forall l h es h',
  (forall x h es h', In x l -> f x h = (Raise es, h') -> es <> []) ->
  collect f l h = (Raise es, h') -> es <> [].
Proof.
  induction l as [| y l IH]; intros h es h' Hf E; simpl in E; [discriminate |].
  destruct (f y h) as [[b | es1] h1] eqn:E1;
    destruct (collect f l h1) as [[bs | es2] h2] eqn:E2;
    try discriminate; injection E as <- <-.
  - eapply IH; [| exact E2]. intros x h0 es0 h0' Hx. apply Hf. now right.
  - eapply Hf; [now left | exact E1].
  - pose proof (Hf y h es1 h1 (in_eq _ _) E1) as H1.
    destruct es1; [contradiction | discriminate].
Qed.

Lemma nested_raise_nonempty i (m : M value) h es h' :
  (forall es0 h0, m h = (Raise es0, h0) -> es0 <> []) ->
  nested i m h = (Raise es, h') -> es <> [].
Proof.
  intros Hm. unfold nested. destruct (m h) as [[v | es0] h0] eqn:E; [discriminate |].
  intros [= <- <-]. specialize (Hm es0 h0 eq_refl). destruct es0; [contradiction | discriminate].
Qed.

Lemma default_value_raise_nonempty v h es h' :
  default_value v h = (Raise es, h') -> es <> [].
Proof.
  unfold default_value. destruct (hashable v); [discriminate |].
  destruct (deepcopy (length h) v h) as [[v' |] h1]; [discriminate |].
  intros [= <- <-]. discriminate.
Qed.

(** A validation that raises raises at least one line. *)
Lemma raise_nonempty :
  (forall t r h es h', validate lax t r h = (Raise es, h') -> es <> []) /\
  (forall m kw h es h', validate_model lax m kw h = (Raise es, h') -> es <> []).
Proof.
  pose (P := fun t => forall r h es h', validate lax t r h = (Raise es, h') -> es <> []).
  pose (Q := fun m => forall kw h es h', validate_model lax m kw h = (Raise es, h') -> es <> []).
  pose (F := fun f => forall kw h es h', validate_field lax f kw h = (Raise es, h') -> es <> []).
  assert (Hfield : forall n t d,
            (forall o h es h', field_input lax t d o h = (Raise es, h') -> es <> []) ->
            F (Field n t d)).
  { intros n t d Hi kw h es h' E.
    apply validate_field_raise in E as (es' & -> & E).
    apply Hi in E. destruct es'; [contradiction | discriminate]. }
  assert (HP : forall t, P t).
  { apply (ftype_schema_ind P Q F); subst P Q F; cbn beta.
    - intros r h es h'. cbn [validate]. unfold validate_bool.
      destruct r; try destruct (lax_bool lax _); intros [= <- <-]; discriminate.
    - intros r h es h'. cbn [validate]. unfold validate_int.
      destruct r; try destruct (lax_int lax _); intros [= <- <-]; discriminate.
    - intros r h es h'. cbn [validate]. unfold validate_float.
      destruct r; try destruct (lax_float lax _); intros [= <- <-]; discriminate.
    - intros r h es h'. cbn [validate]. unfold validate_str.
      destruct r; try destruct (lax_str lax _); intros [= <- <-]; discriminate.
    - intros allowed r h es h'. cbn [validate]. unfold validate_literal.
      destruct r; try destruct (existsb _ _); intros [= <- <-]; discriminate.
    - intros elem IH r h es h'. cbn [validate].
      destruct r; try (intros [= <- <-]; discriminate).
      unfold mbind, M_bind.
      destruct (collect_items _ items h) as [[vs | es1] h1] eqn:E1; [discriminate |].
      intros [= <- <-]. unfold collect_items in E1.
      eapply collect_raise_nonempty; [| exact E1].
      intros [i x] h0 es0 h0' _ E0. eapply nested_raise_nonempty; [| exact E0].
      intros es2 h2. apply IH.
    - intros t IH r h es h'. cbn [validate].
      destruct r; try apply IH. discriminate.
    - intros m IH r h es h'. cbn [validate].
      destruct r; try (intros [= <- <-]; discriminate). apply IH.
    - intros cls fs IH kw h es h' E. apply validate_model_raise in E.
      eapply collect_raise_nonempty; [| exact E].
      intros f h0 es0 h0' Hf. rewrite Forall_forall in IH.
      apply IH. now apply list_elem_of_In.
    - intros n t IH. apply Hfield. intros o h es h'.
      destruct o; cbn [field_input absent_field]; [apply IH |].
      intros [= <- <-]. discriminate.
    - intros n t v IH. apply Hfield. intros o h es h'.
      destruct o; cbn [field_input absent_field]; [apply IH |].
      apply default_value_raise_nonempty.
    - intros n t m kw' IH IHm. apply Hfield. intros o h es h'.
      destruct o; cbn [field_input absent_field]; [apply IH | apply IHm]. }
  split; [exact HP |].
  intros m kw. exact (HP (TModel m) (RDict kw)).
Qed.

(** X13.  A construction that raises raises at least one line, and every
    line is located below one of the eleven fields of [Settings]. *)
Theorem failures_carry_located_lines raw h es h' :
  unsafe_typed_settings lax raw h = (Raise es, h') ->
  es <> [] /\
  forall e, In e es ->
    exists n p, err_loc e = LKey n :: p /\
      In n ["server"; "data"; "ui"; "llm"; "local"; "sagemaker"; "openai";
            "vectorstore"; "indexstore"; "documentstore"; "qdrant"].
Proof.
  intros E. split; [exact (proj2 raise_nonempty _ _ _ _ _ E) |].
  intros e He. apply validate_model_raise in E.
  destruct (collect_raise_elim _ _ _ _ _ E e He) as (f & hi & es' & hi' & Hf & Ef & He').
  destruct (validate_field_raise_loc lax _ _ _ _ _ _ Ef He') as (p & Hp).
  exists (fname_of f), p. split; [exact Hp |].
  change (In (fname_of f) (map fname_of (fields_of Settings))). now apply in_map.
Qed.

(** ** Values that are given *)

(** X14.  A string given for one of the fields annotated [str] of the
    groups of [Settings] is read back from the instance as it was given,
    and so is the boolean given for [ui.enabled]. *)
Theorem given_scalars_are_read_back raw h v h' :
  unsafe_typed_settings lax raw h = (Ok v, h') ->
  (forall grp fld s,
     In (grp, fld)
        [("server", "env_name"); ("data", "local_data_folder"); ("ui", "path");
         ("local", "llm_hf_repo_id"); ("local", "llm_hf_model_file");
         ("local", "embedding_hf_model_name");
         ("sagemaker", "llm_endpoint_name"); ("sagemaker", "embedding_endpoint_name");
         ("openai", "api_key"); ("vectorstore", "collection_name");
         ("indexstore", "namespace"); ("documentstore", "namespace")] ->
     raw_path (RDict raw) [grp; fld] = Some (RStr s) ->
     getpath h' v [grp; fld] = Some (VStr s)) /\
  (forall b,
     raw_path (RDict raw) ["ui"; "enabled"] = Some (RBool b) ->
     getpath h' v ["ui"; "enabled"] = Some (VBool b)).
Proof.
  intros E.
  assert (Hread : forall G F t d m dm x,
            find_field G (fields_of Settings) = Some (Field G (TModel m) d) ->
            find_field F (fields_of m) = Some (Field F t dm) ->
            forall r, raw_path (RDict raw) [G; F] = Some r ->
            (forall h0, validate lax t r h0 = (Ok x, h0)) ->
            getpath h' v [G; F] = Some x).
  { intros G F t d m dm x HG HF r Hr Hval.
    destruct (validate_model_attr lax _ _ _ _ _ _ G _ _ E HG)
      as (a & attrs & xs & hi & hi' & _ & _ & _ & _ & _ & Hgs & _ & _ & Hps & _ & _ & Hxs).
    cbn [raw_path] in Hr.
    destruct (dict_get G raw) as [rg |]; [| discriminate Hr].
    cbn [field_input] in Hxs. apply validate_TModel_ok in Hxs as (kw & -> & Hxs).
    destruct m as [cls fs]. cbn [fields_of] in HF.
    destruct (validate_model_attr lax _ _ _ _ _ _ F _ _ Hxs HF)
      as (a' & attrs' & y & hj & hj' & _ & _ & _ & _ & _ & Hgy & _ & _ & Hpy & _ & _ & Hxy).
    destruct (dict_get F kw) as [rf |]; [| discriminate Hr].
    injection Hr as ->. cbn [field_input] in Hxy. rewrite Hval in Hxy.
    injection Hxy as <- _. eapply getpath2; eassumption. }
  split.
  - intros grp fld s Hin Hr. simpl in Hin.
    repeat (destruct Hin as [[= <- <-] | Hin];
      [ eapply Hread; [reflexivity | reflexivity | exact Hr | reflexivity] |]).
    contradiction.
  - intros b Hr.
    eapply Hread; [reflexivity | reflexivity | exact Hr | reflexivity].
Qed.


(** X15.  The optional group [qdrant], given as a mapping: a value of the
    annotated type, a string, an integer, a boolean or a float, is bound as
    it was given in each of its twelve fields. *)
Theorem qdrant_given_values_are_bound raw kwq h v h' :
  dict_get "qdrant" raw = Some (RDict kwq) ->
  unsafe_typed_settings lax raw h = (Ok v, h') ->
  (forall fld s,
     In fld ["location"; "url"; "api_key"; "prefix"; "host"; "path"] ->
     dict_get fld kwq = Some (RStr s) ->
     getpath h' v ["qdrant"; fld] = Some (VStr s)) /\
  (forall fld z,
     In fld ["port"; "grpc_port"] ->
     dict_get fld kwq = Some (RInt z) ->
     getpath h' v ["qdrant"; fld] = Some (VInt z)) /\
  (forall fld b,
     In fld ["prefer_grpc"; "https"; "force_disable_check_same_thread"] ->
     dict_get fld kwq = Some (RBool b) ->
     getpath h' v ["qdrant"; fld] = Some (VBool b)) /\
  (forall f,
     dict_get "timeout" kwq = Some (RFloat f) ->
     getpath h' v ["qdrant"; "timeout"] = Some (VFloat f)).
Proof.
  intros Hq E.
  attr E "qdrant" xq Hgq X Hpq Hxq. rewrite Hq in Hxq.
  cbn [field_input validate] in Hxq.
  assert (Hread : forall F t dm r x,
            find_field F (fields_of QdrantSettings) = Some (Field F t dm) ->
            dict_get F kwq = Some r ->
            (forall h0, validate lax t r h0 = (Ok x, h0)) ->
            getpath h' v ["qdrant"; F] = Some x).
  { intros F t dm r x HF Hr Hval.
    destruct (validate_model_attr lax _ _ _ _ _ _ F _ _ Hxq HF)
      as (a' & attrs' & y & hj & hj' & _ & _ & _ & _ & _ & Hgy & _ & _ & Hpy & _ & _ & Hxy).
    rewrite Hr in Hxy. cbn [field_input] in Hxy. rewrite Hval in Hxy.
    injection Hxy as <- _. eapply getpath2; eassumption. }
  repeat split.
  - intros fld s Hin Hr. simpl in Hin.
    repeat (destruct Hin as [<- | Hin];
      [ eapply Hread; [reflexivity | exact Hr | reflexivity] |]).
    contradiction.
  - intros fld z Hin Hr. simpl in Hin.
    repeat (destruct Hin as [<- | Hin];
      [ eapply Hread; [reflexivity | exact Hr | reflexivity] |]).
    contradiction.
  - intros fld b Hin Hr. simpl in Hin.
    repeat (destruct Hin as [<- | Hin];
      [ eapply Hread; [reflexivity | exact Hr | reflexivity] |]).
    contradiction.
  - intros f Hr. eapply Hread; [reflexivity | exact Hr | reflexivity].
Qed.

(** ** Conversions *)

Lemma collect_ok_mono {A B : Type} (f g : A -> M B) : forall l h bs h',
  (forall x h b h', In x l -> f x h = (Ok b, h') -> g x h = (Ok b, h')) ->
  collect f l h = (Ok bs, h') -> collect g l h = (Ok bs, h').
Proof.
  induction l as [| y l IH]; intros h bs h' Hfg E; simpl in E |- *; [exact E |].
  destruct (f y h) as [[b | es1] h1] eqn:E1;
    destruct (collect f l h1) as [[bs1 | es2] h2] eqn:E2; try discriminate.
  injection E as <- <-.
  rewrite (Hfg y h b h1 (in_eq _ _) E1).
  rewrite (IH h1 bs1 h2 (fun x h0 b0 h0' Hx => Hfg x h0 b0 h0' (in_cons _ _ _ Hx)) E2).
  reflexivity.
Qed.

(** What binds without any conversion binds with the conversions [lax], to
    the same value in the same heap. *)
Lemma exact_validate_mono :
  forall t r h v h',
    validate exact_only t r h = (Ok v, h') -> validate lax t r h = (Ok v, h').
Proof.
  pose (P := fun t => forall r h v h',
     validate exact_only t r h = (Ok v, h') -> validate lax t r h = (Ok v, h')).
  pose (Q := fun m => forall kw h v h',
     validate_model exact_only m kw h = (Ok v, h') ->
     validate_model lax m kw h = (Ok v, h')).
  pose (F := fun f => forall kw h b h',
     validate_field exact_only f kw h = (Ok b, h') ->
     validate_field lax f kw h = (Ok b, h')).
  assert (Hfield : forall n t d,
            (forall o h x h', field_input exact_only t d o h = (Ok x, h') ->
                              field_input lax t d o h = (Ok x, h')) ->
            F (Field n t d)).
  { intros n t d Hi kw h b h' E.
    apply validate_field_ok in E as (x & -> & E).
    apply Hi in E. now rewrite (validate_field_of_input lax _ _ _ _ _ _ _ E). }
  apply (ftype_schema_ind P Q F); subst P Q F; cbn beta.
  - intros r h v h'. cbn [validate]. unfold validate_bool.
    destruct r; cbn; try discriminate. exact (fun E => E).
  - intros r h v h'. cbn [validate]. unfold validate_int.
    destruct r; cbn; try discriminate. exact (fun E => E).
  - intros r h v h'. cbn [validate]. unfold validate_float.
    destruct r; cbn; try discriminate. exact (fun E => E).
  - intros r h v h'. cbn [validate]. unfold validate_str.
    destruct r; cbn; try discriminate. exact (fun E => E).
  - intros allowed r h v h'. cbn [validate]. exact (fun E => E).
  - intros elem IH r h v h'. cbn [validate].
    destruct r; try discriminate.
    unfold mbind, M_bind.
    destruct (collect_items (validate exact_only elem) items h) as [[vs | es1] h1] eqn:E1;
      [| discriminate].
    intros E. unfold collect_items in E1 |- *.
    apply (collect_ok_mono _ (fun '(i, r) => nested (LIdx i) (validate lax elem r))) in E1.
    + rewrite E1. exact E.
    + intros [i x] h0 b h0' _. unfold nested.
      destruct (validate exact_only elem x h0) as [[y | es0] h2] eqn:E0; [| discriminate].
      intros [= <- <-]. now rewrite (IH _ _ _ _ E0).
  - intros t IH r h v h'. cbn [validate].
    destruct r; try apply IH. exact (fun E => E).
  - intros m IH r h v h'. cbn [validate].
    destruct r; try discriminate. apply IH.
  - intros cls fs IH kw h v h' E.
    destruct (validate_model_ok _ _ _ _ _ _ _ E) as (attrs & hm & Ec & -> & ->).
    rewrite validate_model_eq. unfold mbind, M_bind.
    rewrite (collect_ok_mono (fun f => validate_field exact_only f kw)
               (fun f => validate_field lax f kw) fs h attrs hm); [reflexivity | | exact Ec].
    intros f h0 b h0' Hf. rewrite Forall_forall in IH.
    apply IH. now apply list_elem_of_In.
  - intros n t IH. apply Hfield. intros o h x h'.
    destruct o; cbn [field_input absent_field]; [apply IH | discriminate].
  - intros n t v IH. apply Hfield. intros o h x h'.
    destruct o; cbn [field_input absent_field]; [apply IH | exact (fun E => E)].
  - intros n t m kw' IH IHm. apply Hfield. intros o h x h'.
    destruct o; cbn [field_input absent_field]; [apply IH | apply IHm].
Qed.

(** X16.  The conversions only add accepted inputs: a mapping that binds
    when no conversion is applied binds under any conversions, to the same
    instance and with the same heap. *)
Theorem exact_inputs_bind_under_any_conversion raw h v h' :
  unsafe_typed_settings exact_only raw h = (Ok v, h') ->
  unsafe_typed_settings lax raw h = (Ok v, h').
Proof.
  intros E. exact (exact_validate_mono (TModel Settings) (RDict raw) h v h' E).
Qed.

End Coverage.

(** ** The further properties on concrete mappings *)

(** X1 on the example with the key [telemetry]. *)
Lemma undeclared_keys_are_ignored_witness :
  unsafe_typed_settings exact_only example_with_unknown_key module_heap =
  unsafe_typed_settings exact_only example_settings module_heap.
Proof.
  apply (undeclared_keys_are_ignored exact_only Settings
           example_with_unknown_key example_settings module_heap).
  intros f Hf. simpl in Hf.
  repeat (destruct Hf as [<- | Hf]; [reflexivity |]). contradiction.
Defined.

(** X2: the vector store [pinecone] is refused, the document store [redis]
    of the example is bound. *)
Lemma discriminators_accept_only_their_literals_witness :
  (exists es h',
     unsafe_typed_settings exact_only example_bad_vectorstore module_heap = (Raise es, h') /\
     In (LineError [LKey "vectorstore"; LKey "database"]
           (literal_error ["chroma"; "qdrant"])) es) /\
  (exists s,
     RStr "redis" = RStr s /\ In s store_databases /\
     getpath example_heap1 example_instance1 ["documentstore"; "database"] = Some (VStr s)).
Proof.
  split.
  - destruct (discriminators_accept_only_their_literals exact_only example_bad_vectorstore
                "vectorstore" "database" ["chroma"; "qdrant"]
                [("database", RStr "pinecone")] (RStr "pinecone")) as [R _];
      [simpl; tauto | reflexivity | reflexivity |].
    apply R. intros s [= <-]. simpl. intros [H | [H | []]]; discriminate H.
  - destruct (discriminators_accept_only_their_literals exact_only example_settings
                "documentstore" "database" store_databases
                [("database", RStr "redis");
                 ("redis", RDict [("host", RStr "myredis"); ("port", RInt 6380)])]
                (RStr "redis")) as [_ B];
      [simpl; tauto | reflexivity | reflexivity |].
    apply (B module_heap). vm_compute. reflexivity.
Defined.


(** X4: the example, which gives no [server.jwt_auth]; a [jwt_auth] group
    without [jwks_url]; a [jwt_auth] group without [ingest_claim]. *)
Lemma jwt_auth_defaults_witness :
  (getpath example_heap1 example_instance1 ["server"; "jwt_auth"; "enabled"] =
     Some (VBool false) /\
   getpath example_heap1 example_instance1 ["server"; "jwt_auth"; "jwks_url"] =
     Some (VStr "https://example.com/.well-known/jwks.json") /\
   getpath example_heap1 example_instance1 ["server"; "jwt_auth"; "ingest_claim"] =
     Some (VStr "ingest") /\
   getpath example_heap1 example_instance1 ["server"; "jwt_auth"; "user_id_claim"] =
     Some (VStr "sub") /\
   getpath example_heap1 example_instance1 ["server"; "jwt_auth"; "audience"] =
     Some (VStr "privateGPT")) /\
  (exists es h',
     unsafe_typed_settings exact_only
       (example_server_with "jwt_auth" (RDict [("enabled", RBool true)])) module_heap =
       (Raise es, h') /\
     In (LineError [LKey "server"; LKey "jwt_auth"; LKey "jwks_url"] missing) es) /\
  getpath example_heap_server example_instance_server ["server"; "jwt_auth"; "ingest_claim"] =
    Some (VStr "ingest").
Proof.
  split; [| split].
  - apply (proj1 (jwt_auth_defaults exact_only example_settings
                    [("env_name", RStr "prod"); ("port", RInt 9000)] eq_refl) eq_refl
             module_heap).
    vm_compute. reflexivity.
  - apply (proj1 (proj2 (jwt_auth_defaults exact_only
                           (example_server_with "jwt_auth" (RDict [("enabled", RBool true)]))
                           (dict_set "jwt_auth" (RDict [("enabled", RBool true)])
                              example_server) eq_refl)
                    [("enabled", RBool true)] eq_refl)).
    reflexivity.
  - apply (proj2 (proj2 (jwt_auth_defaults exact_only example_with_server example_server
                           eq_refl)
                    [("jwks_url", RStr "https://idp.example.com/jwks.json");
                     ("audience", RStr "pgpt")] eq_refl)
             module_heap example_instance_server example_heap_server
             "ingest_claim" (VStr "ingest"));
      [vm_compute; reflexivity | simpl; tauto | reflexivity].
Defined.

(** X5: a [basic_auth] group without [secret], and one with it. *)
Lemma basic_auth_given_needs_secret_witness :
  (exists es h',
     unsafe_typed_settings exact_only
       (example_server_with "basic_auth" (RDict [("enabled", RBool true)])) module_heap =
       (Raise es, h') /\
     In (LineError [LKey "server"; LKey "basic_auth"; LKey "secret"] missing) es) /\
  getpath example_heap_server example_instance_server ["server"; "basic_auth"; "secret"] =
    Some (VStr "Basic c2VjcmV0") /\
  getpath example_heap_server example_instance_server ["server"; "basic_auth"; "enabled"] =
    Some (VBool false).
Proof.
  split.
  - apply (proj1 (basic_auth_given_needs_secret exact_only
                    (example_server_with "basic_auth" (RDict [("enabled", RBool true)]))
                    (dict_set "basic_auth" (RDict [("enabled", RBool true)]) example_server)
                    [("enabled", RBool true)] eq_refl eq_refl)).
    reflexivity.
  - destruct (proj2 (basic_auth_given_needs_secret exact_only example_with_server
                       example_server [("secret", RStr "Basic c2VjcmV0")] eq_refl eq_refl)
                "Basic c2VjcmV0" module_heap example_instance_server example_heap_server)
      as [S En]; [reflexivity | vm_compute; reflexivity |].
    split; [exact S | apply En; reflexivity].
Defined.

(** X6 on the example: the index store gives only [database], the document
    store gives [database] and [redis]; and on an index store whose [redis]
    gives only a host and whose [dynamodb] gives nothing. *)
Lemma store_connection_defaults_witness :
  getpath example_heap1 example_instance1 ["indexstore"; "namespace"] =
    Some (VStr "private_gpt_index") /\
  getpath example_heap1 example_instance1 ["indexstore"; "redis"; "host"] =
    Some (VStr "redis") /\
  getpath example_heap1 example_instance1 ["indexstore"; "redis"; "port"] =
    Some (VInt 6379) /\
  getpath example_heap1 example_instance1 ["indexstore"; "dynamodb"; "table_name"] =
    Some (VStr "dummy_table") /\
  getpath example_heap1 example_instance1 ["documentstore"; "namespace"] =
    Some (VStr "private_gpt_documents") /\
  getpath example_heap1 example_instance1 ["documentstore"; "dynamodb"; "table_name"] =
    Some (VStr "dummy_table") /\
  getpath example_heap_stores example_instance_stores ["indexstore"; "redis"; "port"] =
    Some (VInt 6379) /\
  getpath example_heap_stores example_instance_stores
    ["indexstore"; "dynamodb"; "table_name"] = Some (VStr "dummy_table").
Proof.
  destruct (store_connection_defaults exact_only example_settings "indexstore"
              "private_gpt_index" module_heap example_instance1 example_heap1)
    as (I1 & I2 & I3 & I4); [simpl; tauto | vm_compute; reflexivity |].
  destruct (store_connection_defaults exact_only example_settings "documentstore"
              "private_gpt_documents" module_heap example_instance1 example_heap1)
    as (D1 & _ & _ & D4); [simpl; tauto | vm_compute; reflexivity |].
  destruct (store_connection_defaults exact_only example_partial_stores "indexstore"
              "private_gpt_index" module_heap example_instance_stores example_heap_stores)
    as (_ & _ & P3 & P4); [simpl; tauto | vm_compute; reflexivity |].
  exact (conj (I1 eq_refl) (conj (I2 eq_refl) (conj (I3 eq_refl) (conj (I4 eq_refl)
           (conj (D1 eq_refl) (conj (D4 eq_refl) (conj (P3 eq_refl) (P4 eq_refl)))))))).
Defined.

(** X7: the example, which gives no [server.cors], and a [cors] group that
    gives no [allow_methods]. *)
Lemma cors_field_defaults_witness :
  getpath example_heap1 example_instance1 ["server"; "cors"; "enabled"] =
    Some (VBool false) /\
  (exists l,
     getpath example_heap1 example_instance1 ["server"; "cors"; "allow_origins"] =
       Some (VRef l) /\
     example_heap1 !! l = Some (OList []) /\ (length module_heap <= l)%nat) /\
  (exists l,
     getpath example_heap_server example_instance_server
       ["server"; "cors"; "allow_methods"] = Some (VRef l) /\
     example_heap_server !! l = Some (OList [VStr "GET"]) /\
     (length module_heap <= l)%nat).
Proof.
  destruct (cors_field_defaults exact_only example_settings module_heap
              example_instance1 example_heap1) as [B L];
    [reflexivity | vm_compute; reflexivity |].
  destruct (cors_field_defaults exact_only example_with_server module_heap
              example_instance_server example_heap_server) as [_ L'];
    [reflexivity | vm_compute; reflexivity |].
  split; [apply B; [simpl; tauto | reflexivity] |].
  split.
  - apply (L "allow_origins" []); [simpl; tauto | reflexivity].
  - apply (L' "allow_methods" [VStr "GET"]); [simpl; tauto | reflexivity].
Defined.

(** X8: the two origins of the [cors] group of the example, a list of
    methods with an integer in it, and a single string for
    [allow_origin_regex]. *)
Lemma cors_lists_bound_in_order_witness :
  (exists l,
     getpath example_heap_server example_instance_server
       ["server"; "cors"; "allow_origins"] = Some (VRef l) /\
     example_heap_server !! l =
       Some (OList [VStr "http://localhost:3000"; VStr "https://example.com"]) /\
     (length module_heap <= l)%nat) /\
  (exists es h',
     unsafe_typed_settings exact_only
       (example_cors_with "allow_methods" (RList [RStr "GET"; RInt 1])) module_heap =
       (Raise es, h') /\
     In (LineError [LKey "server"; LKey "cors"; LKey "allow_methods"; LIdx 1] string_type)
        es) /\
  (exists es h',
     unsafe_typed_settings exact_only
       (example_cors_with "allow_origin_regex" (RStr "https://.*[.]example[.]com"))
       module_heap = (Raise es, h') /\
     In (LineError [LKey "server"; LKey "cors"; LKey "allow_origin_regex"] list_type) es).
Proof.
  split; [| split].
  - apply (proj1 (cors_lists_bound_in_order exact_only example_with_server example_server
                    [("enabled", RBool true);
                     ("allow_origins",
                      RList [RStr "http://localhost:3000"; RStr "https://example.com"])]
                    "allow_origins" ltac:(simpl; tauto) eq_refl eq_refl)
             ["http://localhost:3000"; "https://example.com"]
             module_heap example_instance_server example_heap_server);
      [reflexivity | vm_compute; reflexivity].
  - apply (proj1 (proj2 (cors_lists_bound_in_order exact_only
                           (example_cors_with "allow_methods" (RList [RStr "GET"; RInt 1]))
                           (dict_set "cors"
                              (RDict [("enabled", RBool true);
                                      ("allow_methods", RList [RStr "GET"; RInt 1])])
                              example_server)
                           [("enabled", RBool true);
                            ("allow_methods", RList [RStr "GET"; RInt 1])]
                           "allow_methods" ltac:(simpl; tauto) eq_refl eq_refl))
             [RStr "GET"; RInt 1] 1%nat (RInt 1));
      [reflexivity | reflexivity | intros s H; discriminate H | reflexivity].
  - apply (proj2 (proj2 (cors_lists_bound_in_order exact_only
                           (example_cors_with "allow_origin_regex"
                              (RStr "https://.*[.]example[.]com"))
                           (dict_set "cors"
                              (RDict [("enabled", RBool true);
                                      ("allow_origin_regex",
                                       RStr "https://.*[.]example[.]com")])
                              example_server)
                           [("enabled", RBool true);
                            ("allow_origin_regex", RStr "https://.*[.]example[.]com")]
                           "allow_origin_regex" ltac:(simpl; tauto) eq_refl eq_refl))
             (RStr "https://.*[.]example[.]com"));
      [reflexivity | intros items H; discriminate H].
Defined.

(** X9 on the example. *)
Lemma settings_instance_has_every_group_witness :
  exists a attrs,
    example_instance1 = VRef a /\
    example_heap1 !! a = Some (OInstance "Settings" attrs) /\
    map fst attrs =
      ["server"; "data"; "ui"; "llm"; "local"; "sagemaker"; "openai";
       "vectorstore"; "indexstore"; "documentstore"; "qdrant"] /\
    forall n c,
      In (n, c) [("server", "ServerSettings"); ("data", "DataSettings");
                 ("ui", "UISettings"); ("llm", "LLMSettings");
                 ("local", "LocalSettings"); ("sagemaker", "SagemakerSettings");
                 ("openai", "OpenAISettings"); ("vectorstore", "VectorstoreSettings");
                 ("indexstore", "IndexstoreSettings");
                 ("documentstore", "DocumentstoreSettings")] ->
      exists b battrs,
        dict_get n attrs = Some (VRef b) /\
        example_heap1 !! b = Some (OInstance c battrs).
Proof.
  apply (settings_instance_has_every_group exact_only example_settings module_heap).
  vm_compute. reflexivity.
Defined.

(** X10: [data] given as a string, [qdrant] given as null. *)
Lemma group_must_be_a_mapping_witness :
  (exists es h',
     unsafe_typed_settings exact_only example_data_as_string module_heap = (Raise es, h') /\
     In (LineError [LKey "data"] (model_type "DataSettings")) es) /\
  (exists v h',
     unsafe_typed_settings exact_only example_qdrant_null module_heap = (Ok v, h') /\
     getattr h' v "qdrant" = Some VNone).
Proof.
  split.
  - apply (proj1 (group_must_be_a_mapping exact_only example_data_as_string)
             "data" DataSettings (RStr "/data"));
      [simpl; tauto | reflexivity | intros kw H; discriminate H
      | intros H; discriminate H].
  - eexists _, _. split; [vm_compute; reflexivity |].
    apply (proj2 (group_must_be_a_mapping exact_only example_qdrant_null) eq_refl
             module_heap).
    vm_compute. reflexivity.
Defined.

(** X11: after a failing and a successful construction that follow the
    first one, the first instance reads the same port and the class-level
    list of methods is the same. *)
Lemma constructions_preserve_the_heap_witness :
  getpath (construct_all exact_only [example_bad_mode; example_with_server] example_heap1)
    example_instance1 ["server"; "port"] = Some (VInt 9000) /\
  construct_all exact_only [example_bad_mode; example_with_server] example_heap1 !! 1%nat =
    Some (OList [VStr "GET"]).
Proof.
  destruct (constructions_preserve_the_heap exact_only
              [example_bad_mode; example_with_server] example_heap1) as (_ & A & P).
  split; [apply P; reflexivity | apply A; reflexivity].
Defined.

(** X12: the example without [openai.api_key] and with the mode [gpt4all]. *)
Lemma errors_are_reported_together_witness :
  exists es h',
    unsafe_typed_settings exact_only example_two_errors module_heap = (Raise es, h') /\
    In (LineError [LKey "openai"; LKey "api_key"] missing) es /\
    In (LineError [LKey "llm"; LKey "mode"] (literal_error llm_modes)) es.
Proof.
  apply (errors_are_reported_together exact_only example_two_errors ["openai"; "api_key"]
           "llm" "mode" llm_modes [("mode", RStr "gpt4all")] (RStr "gpt4all")).
  - apply (absent_below _ _ _ "openai" (TModel OpenAISettings) Required OpenAISettings
             [] ["api_key"]);
      [simpl; tauto | reflexivity | reflexivity |].
    apply (absent_here _ _ _ "api_key" TStr); [simpl; tauto | reflexivity].
  - simpl; tauto.
  - reflexivity.
  - reflexivity.
  - intros s [= <-]. simpl. intros [H | [H | [H | [H | []]]]]; discriminate H.
Defined.

(** X13 on the example with the mode [gpt4all]. *)
Lemma failures_carry_located_lines_witness :
  exists es h',
    unsafe_typed_settings exact_only example_bad_mode module_heap = (Raise es, h') /\
    es <> [] /\
    forall e, In e es ->
      exists n p, err_loc e = LKey n :: p /\
        In n ["server"; "data"; "ui"; "llm"; "local"; "sagemaker"; "openai";
              "vectorstore"; "indexstore"; "documentstore"; "qdrant"].
Proof.
  eexists _, _. split; [vm_compute; reflexivity |].
  eapply (failures_carry_located_lines exact_only example_bad_mode module_heap).
  vm_compute. reflexivity.
Defined.

(** X14 on the example. *)
Lemma given_scalars_are_read_back_witness :
  getpath example_heap1 example_instance1 ["data"; "local_data_folder"] =
    Some (VStr "/data") /\
  getpath example_heap1 example_instance1 ["local"; "llm_hf_model_file"] =
    Some (VStr "mistral-7b-instruct-v0.1.Q4_K_M.gguf") /\
  getpath example_heap1 example_instance1 ["ui"; "enabled"] = Some (VBool true).
Proof.
  destruct (given_scalars_are_read_back exact_only example_settings module_heap
              example_instance1 example_heap1) as [S B]; [vm_compute; reflexivity |].
  split; [| split].
  - apply S; [simpl; tauto | reflexivity].
  - apply S; [simpl; tauto | reflexivity].
  - apply B. reflexivity.
Defined.

(** X15 on the example with a [qdrant] group. *)
Lemma qdrant_given_values_are_bound_witness :
  exists v h',
    unsafe_typed_settings exact_only example_with_qdrant module_heap = (Ok v, h') /\
    getpath h' v ["qdrant"; "url"] = Some (VStr "http://qdrant:6333") /\
    getpath h' v ["qdrant"; "port"] = Some (VInt 7000) /\
    getpath h' v ["qdrant"; "prefer_grpc"] = Some (VBool true) /\
    getpath h' v ["qdrant"; "timeout"] = Some (VFloat (S754_finite false 5 1)).
Proof.
  eexists _, _. split; [vm_compute; reflexivity |].
  destruct (qdrant_given_values_are_bound exact_only example_with_qdrant
              [("url", RStr "http://qdrant:6333"); ("port", RInt 7000);
               ("prefer_grpc", RBool true); ("timeout", RFloat (S754_finite false 5 1))]
              module_heap _ _ eq_refl ltac:(vm_compute; reflexivity))
    as (S & I & B & F).
  split; [apply S; [simpl; tauto | reflexivity] |].
  split; [apply I; [simpl; tauto | reflexivity] |].
  split; [apply B; [simpl; tauto | reflexivity] |].
  apply F. reflexivity.
Defined.

(** X16: the example binds to the same instance under two conversions of the
    lax mode. *)
Lemma exact_inputs_bind_under_any_conversion_witness :
  unsafe_typed_settings example_conversions example_settings module_heap =
    (Ok example_instance1, example_heap1).
Proof.
  apply (exact_inputs_bind_under_any_conversion example_conversions example_settings
           module_heap).
  vm_compute. reflexivity.
Defined.
